(** * fast-jwt: the signer (src/signer.js)

    A shallow embedding of [encodeHeader], [encodePayload] and
    [createSigner] together with the part of the JavaScript runtime they
    rely on (values, [typeof], truthiness, object spread and
    [Object.assign], [JSON.stringify], [Buffer#toString('base64')]).

    signer.js imports crypto.js, error.js and utils.js, which are not
    among the sources. The algorithm tables, the worker-thread probe,
    [createSignature] and [getAsyncSecret] are the fields of a [host]
    that the definitions take as a parameter, so that every theorem
    holds for every host; [base64UrlEncode] is modelled from the spec.

    Conventions of the model:
    - a JavaScript string is a [string] holding the UTF-8 bytes of its
      text, so [Buffer.from(s)] is the identity on the bytes;
    - a number is an integer ([VNum]) or [VNaN]; the arithmetic of lines
      34-46 is the arithmetic of integers, which is the runtime's as long
      as the products and sums stay below 2^53 in absolute value, as they
      do for every reading of the clock (the arithmetic of the runtime
      on integers is given next to it, and the two are compared);
      fractional numbers, infinities, symbols and bigints are outside the
      model;
    - an object is the list of its own enumerable properties in the order
      of their creation; the runtime lists them with the array indices
      first ([key_order]), which is the order [JSON.stringify] writes;
    - decoding a buffer with an encoding the runtime does not know throws
      a [TypeError];
    - the objects the caller holds by reference live in a store; property
      values are immutable trees, as the signer never writes below the top
      level of an object. *)

From Stdlib Require Import ZArith NArith Ascii String List Bool Lia DecimalString.
From stdpp Require Import base option list strings gmap.

Set Warnings "-register-all,-clear-no-such-hyp".
Local Open Scope Z_scope.

(** ** Strings *)

Abbreviation str_nil := EmptyString.

Definition dquote : ascii := ascii_of_nat 34.
Definition chr (c : ascii) : string := String c str_nil.

Fixpoint join (sep : string) (l : list string) : string :=
  match l with
  | [] => str_nil
  | [x] => x
  | x :: r => x +:+ sep +:+ join sep r
  end.

Fixpoint str_forall (p : ascii -> bool) (s : string) : bool :=
  match s with
  | str_nil => true
  | String c r => p c && str_forall p r
  end.

Fixpoint str_exists (p : ascii -> bool) (s : string) : bool :=
  match s with
  | str_nil => false
  | String c r => p c || str_exists p r
  end.

Definition is_char (c d : ascii) : bool := Ascii.eqb c d.

(** [s.split('.')]: the maximal runs between the separators; the empty
    text splits into one empty segment. *)
Fixpoint split_on (sep : ascii) (s : string) : list string :=
  match s with
  | str_nil => [str_nil]
  | String c r =>
      if Ascii.eqb c sep then str_nil :: split_on sep r
      else match split_on sep r with
           | [] => [chr c]
           | x :: xs => String c x :: xs
           end
  end.

Definition string_of_Z (n : Z) : string := NilZero.string_of_int (Z.to_int n).
Definition string_of_nat (n : nat) : string := string_of_Z (Z.of_nat n).

(** ** Base64, as [Buffer#toString('base64')] produces it: the standard
    alphabet, padded with [=] to a multiple of four characters. *)

Definition b64_alphabet : string :=
  "ABCDEFGHIJKLMNOPQRSTUVWXYZabcdefghijklmnopqrstuvwxyz0123456789+/".

Definition b64_digit (n : N) : ascii :=
  match String.get (N.to_nat (N.land n 63)) b64_alphabet with
  | Some c => c
  | None => "="%char
  end.

Fixpoint base64 (s : string) : string :=
  match s with
  | str_nil => str_nil
  | String a str_nil =>
      let n := N.shiftl (N_of_ascii a) 16 in
      String (b64_digit (N.shiftr n 18)) (String (b64_digit (N.shiftr n 12)) "==")
  | String a (String b str_nil) =>
      let n := N.lor (N.shiftl (N_of_ascii a) 16) (N.shiftl (N_of_ascii b) 8) in
      String (b64_digit (N.shiftr n 18)) (String (b64_digit (N.shiftr n 12))
        (String (b64_digit (N.shiftr n 6)) "="))
  | String a (String b (String c r)) =>
      let n := N.lor (N.lor (N.shiftl (N_of_ascii a) 16) (N.shiftl (N_of_ascii b) 8))
                     (N_of_ascii c) in
      String (b64_digit (N.shiftr n 18)) (String (b64_digit (N.shiftr n 12))
        (String (b64_digit (N.shiftr n 6)) (String (b64_digit n) (base64 r))))
  end.

(** Modelled from the spec: [base64UrlEncode] of utils.js, which is not
    among the sources. The spec's wire format asks for URL-safe, unpadded
    segments: the padding [=] is dropped, [+] becomes [-] and [/] becomes
    [_]; every other character is kept. *)
Fixpoint base64UrlEncode (s : string) : string :=
  match s with
  | str_nil => str_nil
  | String c r =>
      if is_char c "=" then base64UrlEncode r
      else if is_char c "+" then String "-" (base64UrlEncode r)
      else if is_char c "/" then String "_" (base64UrlEncode r)
      else String c (base64UrlEncode r)
  end.

(** ** Values *)

Inductive value : Type :=
| VUndefined
| VNull
| VBool (b : bool)
| VNum (n : Z)
| VNaN
| VStr (s : string)
| VArr (l : list value)
| VObj (o : list (string * value))
| VBuf (bytes : string)
| VFun (name : string).

Abbreviation obj := (list (string * value)).

Inductive jstype := TUndefined | TObject | TBoolean | TNumber | TString | TFunction.

#[global] Instance jstype_eq_dec : EqDecision jstype.
Proof. solve_decision. Defined.

Definition typeof (v : value) : jstype :=
  match v with
  | VUndefined => TUndefined
  | VNull | VArr _ | VObj _ | VBuf _ => TObject
  | VBool _ => TBoolean
  | VNum _ | VNaN => TNumber
  | VStr _ => TString
  | VFun _ => TFunction
  end.

Definition jstype_eqb (a b : jstype) : bool :=
  match a, b with
  | TUndefined, TUndefined | TObject, TObject | TBoolean, TBoolean
  | TNumber, TNumber | TString, TString | TFunction, TFunction => true
  | _, _ => false
  end.

(** ToBoolean. *)
Definition truthy (v : value) : bool :=
  match v with
  | VUndefined | VNull | VNaN => false
  | VBool b => b
  | VNum n => negb (n =? 0)
  | VStr s => negb (String.eqb s str_nil)
  | VArr _ | VObj _ | VBuf _ | VFun _ => true
  end.

Definition isBuffer (v : value) : bool :=
  match v with VBuf _ => true | _ => false end.

Definition isArray (v : value) : bool :=
  match v with VArr _ => true | _ => false end.

(** [a === b] against a string literal. *)
Definition is_string (v : value) (s : string) : bool :=
  match v with VStr t => String.eqb t s | _ => false end.

(** [list.includes(v)] for a list of strings. *)
Definition includes (l : list string) (v : value) : bool :=
  existsb (is_string v) l.

(** ** Objects: own properties in the order of their creation *)

Fixpoint get_prop (o : obj) (k : string) : option value :=
  match o with
  | [] => None
  | (k', v) :: r => if String.eqb k' k then Some v else get_prop r k
  end.

(** [o.k]: a missing property reads as [undefined]. *)
Definition prop (o : obj) (k : string) : value := default VUndefined (get_prop o k).

(** [o.k = v]: an existing key keeps its place, a new one goes last. *)
Fixpoint set_prop (o : obj) (k : string) (v : value) : obj :=
  match o with
  | [] => [(k, v)]
  | (k', v') :: r => if String.eqb k' k then (k', v) :: r else (k', v') :: set_prop r k v
  end.

(** [Object.assign(target, src)] and the spread [{...target, ...src}] on
    the level of property lists: every own property of [src], also one
    whose value is [undefined], is written to the target in order. *)
Definition assign (target src : obj) : obj :=
  fold_left (fun acc kv => set_prop acc (fst kv) (snd kv)) src target.

Fixpoint index_props (i : nat) (l : list value) : obj :=
  match l with
  | [] => []
  | x :: r => (string_of_nat i, x) :: index_props (S i) r
  end.

(** The own enumerable properties a spread or [Object.assign] copies from
    a source value: nothing from [undefined], [null], a boolean, a number
    or a function; the elements of an array or of a buffer under their
    indices; the characters of a string under theirs. *)
Definition own_props (v : value) : obj :=
  match v with
  | VObj o => o
  | VArr l => index_props 0 l
  | VBuf b => index_props 0 (map (fun c => VNum (Z.of_N (N_of_ascii c))) (list_ascii_of_string b))
  | VStr s => index_props 0 (map (fun c => VStr (chr c)) (list_ascii_of_string s))
  | _ => []
  end.

(** ** The order of the own properties *)

(** The value of a text of decimal digits. *)
Fixpoint digits (s : string) (acc : N) : option N :=
  match s with
  | str_nil => Some acc
  | String c r =>
      let d := N_of_ascii c in
      if ((48 <=? d) && (d <=? 57))%N then digits r (10 * acc + (d - 48))%N else None
  end.

(** An array index: the canonical decimal text of an integer below
    2^32 - 1, that is [0] or digits that do not start with [0]. *)
Definition array_index (k : string) : option N :=
  match k with
  | str_nil => None
  | String c r =>
      match digits k 0 with
      | Some n =>
          if (negb (is_char c "0") || String.eqb r str_nil) && (n <? 4294967295)%N
          then Some n else None
      | None => None
      end
  end.

(** An array index comes before a larger one and before every other
    name. *)
Definition key_le (a b : option N) : bool :=
  match a, b with
  | Some n, Some m => (n <=? m)%N
  | Some _, None => true
  | None, Some _ => false
  | None, None => true
  end.

Fixpoint insert_prop {A} (p : string * A) (l : list (string * A)) : list (string * A) :=
  match l with
  | [] => [p]
  | q :: r =>
      if key_le (array_index (fst p)) (array_index (fst q)) then p :: l
      else q :: insert_prop p r
  end.

(** The order in which the runtime lists the own properties of an object
    (OrdinaryOwnPropertyKeys), for a spread as for [JSON.stringify]: the
    array indices in ascending order, then the other names in the order
    of their creation. *)
Fixpoint key_order {A} (l : list (string * A)) : list (string * A) :=
  match l with
  | [] => []
  | p :: r => insert_prop p (key_order r)
  end.

(** ** JSON.stringify *)

Definition hex_digit (n : N) : ascii :=
  match String.get (N.to_nat (N.land n 15)) "0123456789abcdef" with
  | Some c => c
  | None => "0"%char
  end.

Definition escape_char (c : ascii) : string :=
  let n := N_of_ascii c in
  if (n =? 34)%N then String "\" (chr dquote)
  else if (n =? 92)%N then "\\"
  else if (n =? 8)%N then "\b"
  else if (n =? 12)%N then "\f"
  else if (n =? 10)%N then "\n"
  else if (n =? 13)%N then "\r"
  else if (n =? 9)%N then "\t"
  else if (n <? 32)%N then "\u00" +:+ String (hex_digit (N.shiftr n 4)) (chr (hex_digit n))
  else chr c.

Fixpoint escape (s : string) : string :=
  match s with
  | str_nil => str_nil
  | String c r => escape_char c +:+ escape r
  end.

Definition quote (s : string) : string := String dquote (escape s +:+ chr dquote).

(** The members of an object, from the serializations of its
    properties: a property whose value serializes to [undefined]
    ([None]) is left out. *)
Fixpoint members (l : list (string * option string)) : list string :=
  match l with
  | [] => []
  | (k, Some t) :: r => (quote k +:+ ":" +:+ t) :: members r
  | (k, None) :: r => members r
  end.

(** [None] stands for the result [undefined]. The properties of an
    object are written in the order the runtime lists them, without those
    whose value serializes to [undefined]; in an array such an element is
    written as [null]. A buffer serializes through its [toJSON]. *)
Fixpoint stringify (v : value) : option string :=
  match v with
  | VUndefined | VFun _ => None
  | VNull | VNaN => Some "null"
  | VBool b => Some (if b then "true" else "false")
  | VNum n => Some (string_of_Z n)
  | VStr s => Some (quote s)
  | VArr l =>
      let fix elems (l : list value) : list string :=
        match l with
        | [] => []
        | x :: r => default "null" (stringify x) :: elems r
        end in
      Some ("[" +:+ join "," (elems l) +:+ "]")
  | VObj o =>
      let fix props (o : obj) : list (string * option string) :=
        match o with
        | [] => []
        | (k, x) :: r => (k, stringify x) :: props r
        end in
      Some ("{" +:+ join "," (members (key_order (props o))) +:+ "}")
  | VBuf b =>
      Some ("{" +:+ quote "type" +:+ ":" +:+ quote "Buffer" +:+ "," +:+ quote "data" +:+ ":["
            +:+ join "," (map (fun c => string_of_Z (Z.of_N (N_of_ascii c)))
                              (list_ascii_of_string b))
            +:+ "]}")
  end.

(** ** Errors and results *)

(** The codes of [TokenError.codes] that signer.js names. *)
Inductive code := invalidType | invalidOption | secretFetchingError.

(** What a call can throw: a [TokenError] (code, message and the wrapped
    cause of its third argument), the runtime's [TypeError] (tagged with
    the operation that failed, not with the host's wording), or whatever
    else a collaborator throws. *)
Inductive error : Type :=
| TokenError (c : code) (message : string) (cause : option error)
| TypeError (operation : string)
| OtherError (message : string).

Inductive result (A : Type) : Type :=
| Ok (a : A)
| Throw (e : error).
Arguments Ok {A} a.
Arguments Throw {A} e.

Definition is_TokenError (e : error) : bool :=
  match e with TokenError _ _ _ => true | _ => false end.

(** ** The host: what signer.js imports or calls and src/ does not hold *)

Record host := {
  (** crypto.js: the three algorithm tables and the worker-thread probe. *)
  publicKeyAlgorithms : list string;
  rsaKeyAlgorithms : list string;
  hashAlgorithms : list string;
  supportsWorkerThreads : bool;
  (** crypto.js: [createSignature(algorithm, secret, encodedHeader,
      encodedPayload, useWorkerThreads)], the base64 text of the
      signature, or a failure (thrown, or a rejected promise awaited). *)
  createSignature : value -> value -> string -> string -> value -> result string;
  (** utils.js: [getAsyncSecret(secret, header)], awaited. *)
  getAsyncSecret : value -> obj -> result value;
  (** Node: [buffer.toString(encoding)] on the bytes of a buffer; [None]
      when the runtime does not know the encoding, where the call throws
      a [TypeError]. *)
  bufferToString : value -> string -> option string;
  (** The runtime's ToNumber on a string or an object operand: [None] is
      NaN. *)
  toNumberHost : value -> option Z;
}.

(** ** The store of caller-held objects, and calls as state passing *)

Abbreviation loc := positive.
Abbreviation heap := (gmap positive (list (string * value))).

(** An argument is a value passed by value (a primitive, or a buffer,
    array, function or object literal nobody else holds), or a reference
    to a plain object of the store. *)
Inductive arg :=
| Val (v : value)
| Ref (l : loc).

Definition arg_typeof (p : arg) : jstype :=
  match p with Val v => typeof v | Ref _ => TObject end.

Definition M (A : Type) : Type := heap -> result A * heap.

Definition throw {A} (e : error) : M A := fun h => (Throw e, h).
Definition lift {A} (r : result A) : M A := fun h => (r, h).

#[global] Instance M_ret : MRet M := fun A a h => (Ok a, h).
#[global] Instance M_bind : MBind M := fun A B k m h =>
  match m h with
  | (Ok a, h') => k a h'
  | (Throw e, h') => (Throw e, h')
  end.

(** A reference is read through the store; the model only ever passes
    allocated references, an unallocated one reads as the empty object. *)
Definition read_object (l : loc) : M obj := fun h => (Ok (default [] (h !! l)), h).
Definition write_object (l : loc) (o : obj) : M unit := fun h => (Ok tt, <[l := o]> h).
(** An object literal: a new cell at a location the store does not use. *)
Definition new_object (o : obj) : M loc :=
  fun h => let l := fresh (dom h) in (Ok l, <[l := o]> h).

(** [Buffer.from(JSON.stringify(x))]: [Buffer.from(undefined)] throws. *)
Definition buffer_from_json (j : option string) : result string :=
  match j with
  | Some t => Ok t
  | None => Throw (TypeError "Buffer.from(undefined)")
  end.

(** What a completion callback is called with: [(e)] or [(null, rv)]. *)
Inductive cb_args :=
| CbError (e : error)
| CbToken (rv : string).

(** A callback argument that is a function, by what a call of it does:
    it returns a value or throws. [None] is an argument that is not a
    function. *)
Abbreviation callback := (option (cb_args -> result value)).

(** How the promise of the [async] function settles ([Ok]: resolved,
    [Throw]: rejected) and the calls made to the callback, in order. *)
Record outcome := {
  settled : result value;
  calls : list cb_args;
}.

Section Signer.

Variable E : host.

(** ** encodeHeader (lines 13-22) *)

(** Lines 16-18 and 26-28: a buffer is replaced by its decoded text;
    [payload.toString(encoding)] throws for an encoding the runtime does
    not know. *)
Definition decode_buffer (encoding : value) (payload : arg) : result arg :=
  match payload with
  | Val (VBuf b) =>
      match bufferToString E encoding b with
      | Some s => Ok (Val (VStr s))
      | None => Throw (TypeError "payload.toString(encoding)")
      end
  | _ => Ok payload
  end.

(** The object literal of line 20: [alg], [typ] and [kid] are created
    first, then the spread writes every own property of the extra header,
    over them where the names agree. *)
Definition header_of (alg kid additionalHeader : value) (payload : arg) : obj :=
  assign [("alg", alg);
          ("typ", if jstype_eqb (arg_typeof payload) TObject then VStr "JWT" else VUndefined);
          ("kid", kid)]
         (own_props additionalHeader).

Definition encodeHeader (alg kid additionalHeader : value) (payload : arg) (encoding : value)
  : result (string * obj) :=
  if negb (jstype_eqb (arg_typeof payload) TString)
     && negb (jstype_eqb (arg_typeof payload) TObject)
  then Throw (TokenError invalidType "The payload must be a object, a string or a buffer." None)
  else
    match decode_buffer encoding payload with
    | Throw e => Throw e
    | Ok payload =>
        let header := header_of alg kid additionalHeader payload in
        match buffer_from_json (stringify (VObj header)) with
        | Ok json => Ok (base64 json, header)
        | Throw e => Throw e
        end
    end.

(** ** encodePayload (lines 24-59) *)

(** [payload.iat]: reading a property of [null] or [undefined] throws; a
    reference reads the store; booleans, numbers, functions and arrays
    have no such property. *)
Definition read_iat (payload : arg) : M value :=
  match payload with
  | Ref l => o ← read_object l; mret (prop o "iat")
  | Val (VObj o) => mret (prop o "iat")
  | Val VNull | Val VUndefined => throw (TypeError "payload.iat")
  | Val _ => mret VUndefined
  end.

(** ToNumber; [None] is NaN. *)
Definition toNumber (v : value) : option Z :=
  match v with
  | VUndefined | VNaN => None
  | VNull => Some 0
  | VBool b => Some (if b then 1 else 0)
  | VNum n => Some n
  | _ => toNumberHost E v
  end.

(** Line 34: [payload.iat * 1000 || Date.now()], where [now] is the
    reading of the clock. NaN and 0 are falsy. The product is the one of
    integers ([iat_ms_double] below is the one of the runtime). *)
Definition iat_ms (iatProp : value) (now : Z) : Z :=
  match toNumber iatProp with
  | Some n => if n * 1000 =? 0 then now else n * 1000
  | None => now
  end.

(** A time span as the signer holds it after the validation of lines
    128-134: falsy, or a number; the guards of lines 41 and 45 pass
    exactly on [Some]. *)
Definition span (v : value) : option Z :=
  match v with
  | VNum n => if truthy v then Some n else None
  | _ => None
  end.

(** Lines 35-47, in the arithmetic of integers: the sums are exact and
    [Math.floor(x / 1000)] is [x / 1000] on [Z]. The runtime computes in
    doubles, which gives the same numbers as long as they are below 2^53
    in absolute value ([additionalPayload_double] below). *)
Definition additionalPayload_of (iat : Z) (noTimestamp : value) (expiresIn notBefore : option Z)
  : obj :=
  let o0 : obj := [] in
  let o1 := if negb (truthy noTimestamp) then set_prop o0 "iat" (VNum (iat / 1000)) else o0 in
  let o2 := match expiresIn with
            | Some e => set_prop o1 "exp" (VNum ((iat + e) / 1000))
            | None => o1
            end in
  match notBefore with
  | Some b => set_prop o2 "nbf" (VNum ((iat + b) / 1000))
  | None => o2
  end.

(** Line 53, [Object.assign(payload, fixedPayload, additionalPayload)]:
    an object of the store is overwritten in place and is the result; on
    an array, a function or the wrapper of a primitive the named
    properties do not show in the serialization. *)
Definition assign_in_place (payload : arg) (fixedPayload additionalPayload : obj) : M value :=
  match payload with
  | Ref l =>
      o ← read_object l;
      let merged := assign (assign o fixedPayload) additionalPayload in
      _ ← write_object l merged;
      mret (VObj merged)
  | Val (VObj o) => mret (VObj (assign (assign o fixedPayload) additionalPayload))
  | Val v => mret v
  end.

(** Line 55, [{ ...payload, ...fixedPayload, ...additionalPayload }]: a
    new object. *)
Definition spread_new (payload : arg) (fixedPayload additionalPayload : obj) : M value :=
  o ← match payload with
      | Ref l => read_object l
      | Val v => mret (own_props v)
      end;
  let merged := assign (assign o fixedPayload) additionalPayload in
  _ ← new_object merged;
  mret (VObj merged).

Definition encodePayload (now : Z) (payload : arg) (encoding : value) (fixedPayload : obj)
    (noTimestamp : value) (expiresIn notBefore : option Z) (mutatePayload : value) : M string :=
  payload ← lift (decode_buffer encoding payload);
  match payload with
  | Val (VStr s) => mret (base64UrlEncode (base64 s))
  | _ =>
      iatProp ← read_iat payload;
      let iat := iat_ms iatProp now in
      let additionalPayload := additionalPayload_of iat noTimestamp expiresIn notBefore in
      finalPayload ← (if truthy mutatePayload
                      then assign_in_place payload fixedPayload additionalPayload
                      else spread_new payload fixedPayload additionalPayload);
      json ← lift (buffer_from_json (stringify finalPayload));
      mret (base64UrlEncode (base64 json))
  end.

(** ** createSigner (lines 81-238) *)

(** What the closures returned by [createSigner] capture. The two time
    spans are held as [span] gives them; everything else is the option's
    value as destructured on lines 82-98. *)
Record config := {
  secret : value;
  algorithm : value;
  encoding : value;
  noTimestamp : value;
  mutatePayload : value;
  useWorkerThreads : value;
  expiresIn : option Z;
  notBefore : option Z;
  fixedPayload : obj;
  kid : value;
  additionalHeader : value;
}.

(** The function [createSigner] returns: the one of lines 175-191 or the
    [async] one of lines 194-237. *)
Inductive signer :=
| SyncSigner (c : config)
| AsyncSigner (c : config).

(** Line 98: [{ algorithm: 'HS256', ...options }], then one destructured
    name. *)
Definition option_of (options : value) (name : string) : value :=
  prop (assign [("algorithm", VStr "HS256")] (own_props options)) name.

(** [Array.from(new Set(l))]: first occurrences, in order. *)
Definition unique (l : list string) : list string :=
  fold_left (fun acc x => if existsb (String.eqb x) acc then acc else acc ++ [x]) l [].

Definition supported (alg : value) : bool :=
  is_string alg "none"
  || includes (publicKeyAlgorithms E) alg
  || includes (rsaKeyAlgorithms E) alg
  || includes (hashAlgorithms E) alg.

Definition supportedAlgorithms : string :=
  join ", " (unique (publicKeyAlgorithms E ++ rsaKeyAlgorithms E ++ hashAlgorithms E ++ ["none"])).

Definition invalid (message : string) : error := TokenError invalidOption message None.

Definition is_type (v : value) (t : jstype) : bool := jstype_eqb (typeof v) t.

(** [v < 0] for a number. *)
Definition negative (v : value) : bool :=
  match v with VNum n => n <? 0 | _ => false end.

(** One validation step: throw when the condition holds. *)
Definition reject_if (cond : bool) (message : string) (k : result signer) : result signer :=
  if cond then Throw (invalid message) else k.

(** Lines 165-171: the object literal of the fixed claims. Each of the
    five names is a property of it, with the value [undefined] when the
    option was not given. *)
Definition fixedPayload_of (jti aud iss sub nonce : value) : obj :=
  [("jti", jti); ("aud", aud); ("iss", iss); ("sub", sub); ("nonce", nonce)].

Definition createSigner (options : value) : result signer :=
  let secret := option_of options "secret" in
  let algorithm := option_of options "algorithm" in
  let encoding := option_of options "encoding" in
  let noTimestamp := option_of options "noTimestamp" in
  let mutatePayload := option_of options "mutatePayload" in
  let useWorkerThreads := option_of options "useWorkerThreads" in
  let expiresIn := option_of options "expiresIn" in
  let notBefore := option_of options "notBefore" in
  let jti := option_of options "jti" in
  let aud := option_of options "aud" in
  let iss := option_of options "iss" in
  let sub := option_of options "sub" in
  let nonce := option_of options "nonce" in
  let kid := option_of options "kid" in
  let additionalHeader := option_of options "header" in
  reject_if (negb (is_string algorithm "none")
             && negb (includes (publicKeyAlgorithms E) algorithm)
             && negb (includes (rsaKeyAlgorithms E) algorithm)
             && negb (includes (hashAlgorithms E) algorithm))
    ("The algorithm option must be one of the following values: " +:+ supportedAlgorithms +:+ ".")
  (reject_if (negb (truthy secret)
              || (negb (is_type secret TString) && negb (is_type secret TObject)
                  && negb (is_type secret TFunction)))
    "The secret option must be a string, buffer, object or callback containing a secret or a private key."
  (reject_if (truthy encoding && negb (is_type encoding TString))
    "The encoding option must be a string."
  (reject_if (truthy expiresIn && (negb (is_type expiresIn TNumber) || negative expiresIn))
    "The expiresIn option must be a positive number."
  (reject_if (truthy notBefore && (negb (is_type notBefore TNumber) || negative notBefore))
    "The notBefore option must be a positive number."
  (reject_if (truthy jti && negb (is_type jti TString))
    "The jti option must be a string."
  (reject_if (truthy aud && negb (is_type aud TString) && negb (isArray aud))
    "The aud option must be a string or an array of strings."
  (reject_if (truthy iss && negb (is_type iss TString))
    "The iss option must be a string."
  (reject_if (truthy sub && negb (is_type sub TString))
    "The sub option must be a string."
  (reject_if (truthy nonce && negb (is_type nonce TString))
    "The nonce option must be a string."
  (reject_if (truthy kid && negb (is_type kid TString))
    "The kid option must be a string."
  (reject_if (truthy additionalHeader && negb (is_type additionalHeader TObject))
    "The header option must be a object."
  (let c := {| secret := secret; algorithm := algorithm; encoding := encoding;
               noTimestamp := noTimestamp; mutatePayload := mutatePayload;
               useWorkerThreads := useWorkerThreads;
               expiresIn := span expiresIn; notBefore := span notBefore;
               fixedPayload := fixedPayload_of jti aud iss sub nonce;
               kid := kid; additionalHeader := additionalHeader |} in
   if negb (is_type secret TFunction)
      && (negb (truthy useWorkerThreads) || negb (supportsWorkerThreads E))
   then Ok (SyncSigner c)
   else Ok (AsyncSigner c))))))))))))).

(** Lines 175-191: the synchronous [signJwt]. *)
Definition signJwt (c : config) (now : Z) (payload : arg) : M string :=
  '(encodedHeader, _) ← lift (encodeHeader (algorithm c) (kid c) (additionalHeader c)
                                           payload (encoding c));
  encodedPayload ← encodePayload now payload (encoding c) (fixedPayload c) (noTimestamp c)
                                 (expiresIn c) (notBefore c) (mutatePayload c);
  signature ← lift (createSignature E (algorithm c) (secret c) encodedHeader encodedPayload
                                    VUndefined);
  mret (encodedHeader +:+ "." +:+ encodedPayload +:+ "." +:+ base64UrlEncode signature).

(** Lines 199-207: the secret the asynchronous path signs with. *)
Definition currentSecret (c : config) (header : obj) : result value :=
  if is_type (secret c) TFunction then
    match getAsyncSecret E (secret c) header with
    | Ok s => Ok s
    | Throw e => Throw (TokenError secretFetchingError "Cannot fetch secret." (Some e))
    end
  else Ok (secret c).

(** Lines 196-223: the [try] block up to the token [rv]. *)
Definition signJwt_try (c : config) (now : Z) (payload : arg) : M string :=
  '(encodedHeader, header) ← lift (encodeHeader (algorithm c) (kid c) (additionalHeader c)
                                                payload (encoding c));
  key ← lift (currentSecret c header);
  encodedPayload ← encodePayload now payload (encoding c) (fixedPayload c) (noTimestamp c)
                                 (expiresIn c) (notBefore c) (mutatePayload c);
  signature ← lift (createSignature E (algorithm c) key encodedHeader encodedPayload
                                    (useWorkerThreads c));
  mret (encodedHeader +:+ "." +:+ encodedPayload +:+ "." +:+ base64UrlEncode signature).

(** Lines 230-236: the [catch] block. *)
Definition signJwt_catch (cb : callback) (e : error) (before : list cb_args) : outcome :=
  match cb with
  | Some f => {| settled := f (CbError e); calls := before ++ [CbError e] |}
  | None => {| settled := Throw e; calls := before |}
  end.

(** Lines 194-237: the asynchronous [signJwt]. *)
Definition signJwt_async (c : config) (now : Z) (payload : arg) (cb : callback) (h : heap)
  : outcome * heap :=
  match signJwt_try c now payload h with
  | (Ok rv, h') =>
      (match cb with
       | Some f =>
           match f (CbToken rv) with
           | Ok _ => {| settled := Ok (VStr rv); calls := [CbToken rv] |}
           | Throw e => signJwt_catch cb e [CbToken rv]
           end
       | None => {| settled := Ok (VStr rv); calls := [] |}
       end, h')
  | (Throw e, h') => (signJwt_catch cb e [], h')
  end.

End Signer.

(** * Notions used to state the properties *)

(** No occurrence of a character. *)
Definition free_of (x : ascii) (s : string) : bool :=
  str_forall (fun y => negb (is_char y x)) s.

(** A digit of the base64 alphabet is neither a dot nor the padding. *)
Definition b64_ok (x : ascii) : bool := negb (is_char x ".") && negb (is_char x "=").

(** The properties [JSON.stringify] writes for an object: those whose
    value does not serialize to [undefined]. *)
Definition serialized_props (o : obj) : obj :=
  List.filter (λ kv, match stringify kv.2 with Some _ => true | None => false end) o.

(** The serializations of the properties of an object, and the members
    [JSON.stringify] writes for it. *)
Definition serialized (o : obj) : list (string * option string) :=
  map (λ kv, (kv.1, stringify kv.2)) o.

Definition members_of (o : obj) : list string := members (key_order (serialized o)).

(** A list of properties in the order the runtime lists them. *)
Fixpoint ordered {A} (l : list (string * A)) : Prop :=
  match l with
  | [] => True
  | p :: r =>
      Forall (λ q, key_le (array_index (fst p)) (array_index (fst q)) = true) r ∧ ordered r
  end.

(** The error of line 15. *)
Definition invalidTypeError : error :=
  TokenError invalidType "The payload must be a object, a string or a buffer." None.

Section Statements.

Variable E : host.

(** The claims computed and merged for a structured payload whose own
    properties are [o]. *)
Definition merged_payload (now : Z) (o fixed : obj) (nots : value) (exp nbf : option Z) : obj :=
  assign (assign o fixed) (additionalPayload_of (iat_ms E (prop o "iat") now) nots exp nbf).

(** A call of [sign] that produced [token], through the synchronous
    function or through the [try] block of the asynchronous one. *)
Definition signs (c : config) (now : Z) (payload : arg) (h : heap) (token : string) (h' : heap)
  : Prop :=
  signJwt E c now payload h = (Ok token, h')
  ∨ signJwt_try E c now payload h = (Ok token, h').

(** Every signature text the host returns is free of dots, as base64
    text is. *)
Definition dotless_signatures : Prop :=
  ∀ alg key hd pl w signature,
    createSignature E alg key hd pl w = Ok signature → free_of "." signature = true.

(** The error of lines 111-114. *)
Definition algorithmError : error :=
  invalid ("The algorithm option must be one of the following values: "
           +:+ supportedAlgorithms E +:+ ".").

End Statements.

(** The text of a payload that is a string, or a buffer that the
    runtime can decode. *)
Definition text_of (E : host) (enc : value) (payload : arg) : option string :=
  match payload with
  | Val (VStr t) => Some t
  | Val (VBuf b) => bufferToString E enc b
  | _ => None
  end.

Definition is_buffer (payload : arg) : bool :=
  match payload with Val v => isBuffer v | Ref _ => false end.

Definition is_array (payload : arg) : bool :=
  match payload with Val v => isArray v | Ref _ => false end.

(** The error of [payload.toString(encoding)] for an unknown encoding. *)
Definition unknownEncodingError : error := TypeError "payload.toString(encoding)".

Definition config_of (s : signer) : config :=
  match s with SyncSigner c | AsyncSigner c => c end.

Definition is_sync (s : signer) : bool :=
  match s with SyncSigner _ => true | AsyncSigner _ => false end.


(** Splitting on the dot yields exactly three segments, none of them
    empty. *)
Definition three_nonempty_segments (token : string) : Prop :=
  ∃ a b c, split_on "." token = [a; b; c] ∧ a ≠ str_nil ∧ b ≠ str_nil ∧ c ≠ str_nil.

(** The fixed payload of a signer created without any of the five
    options. *)
Definition no_fixed_claims : obj :=
  fixedPayload_of VUndefined VUndefined VUndefined VUndefined VUndefined.

(** A deferred result that resolves to a token or rejects with a
    [TokenError]. *)
Definition resolves_or_rejects_tagged (o : outcome) : Prop :=
  (∃ token, settled o = Ok (VStr token))
  ∨ (∃ e, settled o = Throw e ∧ is_TokenError e = true).

(** ** Creating a signer and calling it once *)

(** The synchronous function: what the call returns or throws, and the
    store after it; [None] when [createSigner] threw or returned the
    asynchronous function. *)
Definition sign_once (E : host) (options : value) (now : Z) (payload : arg) (h : heap)
  : option (result string * heap) :=
  match createSigner E options with
  | Ok (SyncSigner c) => Some (signJwt E c now payload h)
  | _ => None
  end.

(** The asynchronous function, likewise. *)
Definition sign_once_async (E : host) (options : value) (now : Z) (payload : arg)
    (cb : callback) (h : heap) : option (outcome * heap) :=
  match createSigner E options with
  | Ok (AsyncSigner c) => Some (signJwt_async E c now payload cb h)
  | _ => None
  end.

(** The header segment of a default (HS256) signer with a key id, for a
    structured payload. *)
Definition encodeHeader_segment (E : host) (kid : value) : option (string * obj) :=
  match encodeHeader E (VStr "HS256") kid VUndefined (Val (VObj [])) VUndefined with
  | Ok r => Some r
  | Throw _ => None
  end.

(** The decoding of the evaluation host. It knows the encodings utf8
    (the default, taken for a falsy encoding; the bytes are taken to be
    well-formed UTF-8 and are the text), hex, base64, latin1 and ascii,
    under the names Node gives them, in any case of the letters; every
    other encoding is unknown to it. *)
Definition lower (c : ascii) : ascii :=
  let n := N_of_ascii c in
  if ((65 <=? n) && (n <=? 90))%N then ascii_of_N (n + 32) else c.

Fixpoint lowercase (s : string) : string :=
  match s with
  | str_nil => str_nil
  | String c r => String (lower c) (lowercase r)
  end.

Fixpoint hex (b : string) : string :=
  match b with
  | str_nil => str_nil
  | String c r =>
      String (hex_digit (N.shiftr (N_of_ascii c) 4)) (String (hex_digit (N_of_ascii c)) (hex r))
  end.

(** A byte as the code point of that number, in UTF-8. *)
Fixpoint latin1 (b : string) : string :=
  match b with
  | str_nil => str_nil
  | String c r =>
      let n := N_of_ascii c in
      if (n <? 128)%N then String c (latin1 r)
      else String (ascii_of_N (192 + N.shiftr n 6))
             (String (ascii_of_N (128 + N.land n 63)) (latin1 r))
  end.

Fixpoint ascii7 (b : string) : string :=
  match b with
  | str_nil => str_nil
  | String c r => String (ascii_of_N (N.land (N_of_ascii c) 127)) (ascii7 r)
  end.

Definition decode0 (encoding : value) (b : string) : option string :=
  if negb (truthy encoding) then Some b
  else match encoding with
       | VStr name =>
           let name := lowercase name in
           if String.eqb name "utf8" || String.eqb name "utf-8" then Some b
           else if String.eqb name "hex" then Some (hex b)
           else if String.eqb name "base64" then Some (base64 b)
           else if String.eqb name "latin1" || String.eqb name "binary" then Some (latin1 b)
           else if String.eqb name "ascii" then Some (ascii7 b)
           else None
       | _ => None
       end.

(** Modelled from the spec: a host to evaluate on, for crypto.js and
    utils.js, which are not among the sources. The algorithm tables are
    the twelve identifiers of the spec's closed set (three widths each of
    the symmetric-hash, RSA, RSA-PSS and elliptic-curve families); the
    signature is a fixed base64 text except for [none], whose signature
    the spec gives as empty; the secret callback yields a secret. *)
Definition host0 : host := {|
  publicKeyAlgorithms := ["RS256"; "RS384"; "RS512"; "ES256"; "ES384"; "ES512";
                          "PS256"; "PS384"; "PS512"];
  rsaKeyAlgorithms := ["RS256"; "RS384"; "RS512"; "PS256"; "PS384"; "PS512"];
  hashAlgorithms := ["HS256"; "HS384"; "HS512"];
  supportsWorkerThreads := true;
  createSignature := fun alg _ _ _ _ => Ok (if is_string alg "none" then str_nil else "c2lnbg==");
  getAsyncSecret := fun _ _ => Ok (VStr "secret");
  bufferToString := decode0;
  toNumberHost := fun _ => None;
|}.

(** The deferred signer of a callback secret, as [createSigner] returns
    it on the evaluation host. *)
Definition deferred0 : signer :=
  AsyncSigner {| secret := VFun "fetchSecret"; algorithm := VStr "HS256";
                 encoding := VUndefined; noTimestamp := VUndefined;
                 mutatePayload := VUndefined; useWorkerThreads := VUndefined;
                 expiresIn := None; notBefore := None;
                 fixedPayload := no_fixed_claims;
                 kid := VUndefined; additionalHeader := VUndefined |}.

(** A signer that writes the claims back, and one that does not. *)
Definition mutating0 (mutate : bool) : config :=
  {| secret := VStr "secretsecretsecret"; algorithm := VStr "HS256";
     encoding := VUndefined; noTimestamp := VUndefined;
     mutatePayload := VBool mutate; useWorkerThreads := VUndefined;
     expiresIn := Some 60000; notBefore := None;
     fixedPayload := fixedPayload_of VUndefined VUndefined (VStr "me") VUndefined VUndefined;
     kid := VUndefined; additionalHeader := VUndefined |}.

Definition caller_heap : heap := {[ 1%positive := [("a", VNum 1)]; 2%positive := [("b", VNum 2)] ]}.

(** A signer for HS256 whose extra header names another algorithm, type
    and key id. *)
Definition overriding0 : config :=
  {| secret := VStr "secretsecretsecret"; algorithm := VStr "HS256";
     encoding := VUndefined; noTimestamp := VUndefined;
     mutatePayload := VUndefined; useWorkerThreads := VUndefined;
     expiresIn := None; notBefore := None;
     fixedPayload := no_fixed_claims;
     kid := VStr "k1";
     additionalHeader := VObj [("alg", VStr "none"); ("typ", VStr "X"); ("kid", VStr "k2")] |}.

(** The signer for the algorithm [none]. *)
Definition unsigned0 : config :=
  {| secret := VStr "secretsecretsecret"; algorithm := VStr "none";
     encoding := VUndefined; noTimestamp := VUndefined;
     mutatePayload := VUndefined; useWorkerThreads := VUndefined;
     expiresIn := None; notBefore := None;
     fixedPayload := no_fixed_claims;
     kid := VUndefined; additionalHeader := VUndefined |}.

(** ** Notions for the further properties *)

(** An integer below 2^53 in absolute value: the runtime's numbers hold
    it exactly, and a product or a sum of integers that is below 2^53 is
    computed exactly. *)
Definition exact (x : Z) : Prop := Z.abs x < 2 ^ 53.

(** *** The arithmetic of the runtime on integers

    A number of the runtime is an IEEE 754 double: a mantissa of 53 bits
    and a binary exponent, every operation rounding its exact result to
    the nearest double, a tie to the one with the even mantissa. The
    operands of lines 34-46 are integers; the exponent range plays no
    role for them (overflow aside) nor for their quotients by 1000. *)

(** The integer nearest to [n / d] for [d > 0], a tie to the even one. *)
Definition rne (n d : Z) : Z :=
  let q := n / d in
  let r := n mod d in
  if 2 * r <? d then q
  else if d <? 2 * r then q + 1
  else if Z.even q then q else q + 1.

(** The floor of the binary logarithm of [|n / d|], for [n] other than 0
    and [d > 0]. *)
Definition log2_quot (n d : Z) : Z :=
  if d <=? Z.abs n then Z.log2 (Z.abs n / d)
  else - Z.log2_up ((d + Z.abs n - 1) / Z.abs n).

(** The double nearest to [n / d], as a mantissa [m] and an exponent [e]
    that stand for [m * 2^e]: the last of the 53 bits of the mantissa
    has the weight [2^e]. *)
Definition nearest_double (n d : Z) : Z * Z :=
  if n =? 0 then (0, 0)
  else
    let e := log2_quot n d - 52 in
    if 0 <=? e then (rne n (d * 2 ^ e), e) else (rne (n * 2 ^ (- e)) d, e).

(** [Math.floor]. *)
Definition floor_double (x : Z * Z) : Z :=
  let (m, e) := x in if 0 <=? e then m * 2 ^ e else m / 2 ^ (- e).

(** [a * b] and [a + b] on integers (the result is an integer again), and
    [Math.floor(a / d)]. *)
Definition double_mul (a b : Z) : Z := floor_double (nearest_double (a * b) 1).
Definition double_add (a b : Z) : Z := floor_double (nearest_double (a + b) 1).
Definition double_floor_div (a d : Z) : Z := floor_double (nearest_double a d).

(** Line 34 and lines 35-47 in the arithmetic of the runtime. *)
Definition iat_ms_double (E : host) (iatProp : value) (now : Z) : Z :=
  match toNumber E iatProp with
  | Some n => if double_mul n 1000 =? 0 then now else double_mul n 1000
  | None => now
  end.

Definition additionalPayload_double (iat : Z) (noTimestamp : value)
    (expiresIn notBefore : option Z) : obj :=
  let o0 : obj := [] in
  let o1 := if negb (truthy noTimestamp)
            then set_prop o0 "iat" (VNum (double_floor_div iat 1000)) else o0 in
  let o2 := match expiresIn with
            | Some e => set_prop o1 "exp" (VNum (double_floor_div (double_add iat e) 1000))
            | None => o1
            end in
  match notBefore with
  | Some b => set_prop o2 "nbf" (VNum (double_floor_div (double_add iat b) 1000))
  | None => o2
  end.

(** The names of the fixed claims (lines 165-171) and of the computed
    ones (lines 38, 42, 46): the eight names [encodePayload] writes. *)
Definition fixed_names : list string := ["jti"; "aud"; "iss"; "sub"; "nonce"].
Definition reserved_names : list string := fixed_names ++ ["iat"; "exp"; "nbf"].

(** An option that is left out, or falsy, or of the given type. *)
Definition falsy_or (t : jstype) (v : value) : Prop :=
  truthy v = false ∨ typeof v = t.

(** The object a signer encodes for a payload object [o]. *)
Definition signed_payload (E : host) (c : config) (now : Z) (o : obj) : obj :=
  merged_payload E now o (fixedPayload c) (noTimestamp c) (expiresIn c) (notBefore c).

(** The promise of an [async] function whose body returns or throws [r],
    with no call of a callback. *)
Definition settle (r : result string * heap) : outcome * heap :=
  match r with
  | (Ok token, h) => ({| settled := Ok (VStr token); calls := [] |}, h)
  | (Throw e, h) => ({| settled := Throw e; calls := [] |}, h)
  end.

(** A host whose signing fails, and one whose secret callback fails. *)
Definition host_failing_signature : host := {|
  publicKeyAlgorithms := publicKeyAlgorithms host0;
  rsaKeyAlgorithms := rsaKeyAlgorithms host0;
  hashAlgorithms := hashAlgorithms host0;
  supportsWorkerThreads := true;
  createSignature := fun _ _ _ _ _ => Throw (OtherError "invalid key");
  getAsyncSecret := getAsyncSecret host0;
  bufferToString := bufferToString host0;
  toNumberHost := toNumberHost host0;
|}.

Definition host_failing_secret : host := {|
  publicKeyAlgorithms := publicKeyAlgorithms host0;
  rsaKeyAlgorithms := rsaKeyAlgorithms host0;
  hashAlgorithms := hashAlgorithms host0;
  supportsWorkerThreads := true;
  createSignature := createSignature host0;
  getAsyncSecret := fun _ _ => Throw (OtherError "no secret");
  bufferToString := bufferToString host0;
  toNumberHost := toNumberHost host0;
|}.

(** A callback that throws when it is given the token. *)
Definition throwing_callback (a : cb_args) : result value :=
  match a with
  | CbToken _ => Throw (OtherError "thrown by the callback")
  | CbError _ => Ok VUndefined
  end.

(** Options with every kind of field, all valid. *)
Definition full_options : value :=
  VObj [("secret", VStr "secretsecretsecret"); ("algorithm", VStr "HS384");
        ("encoding", VStr "utf8"); ("mutatePayload", VBool true);
        ("expiresIn", VNum 60000); ("notBefore", VNum 0);
        ("jti", VStr "id-1"); ("aud", VArr [VStr "a"; VStr "b"]); ("iss", VStr "me");
        ("kid", VStr "k1"); ("header", VObj [("x", VNum 1)])].


(** The same signer with another [mutatePayload] option. *)
Definition with_mutatePayload (c : config) (v : value) : config :=
  {| secret := secret c; algorithm := algorithm c; encoding := encoding c;
     noTimestamp := noTimestamp c; mutatePayload := v;
     useWorkerThreads := useWorkerThreads c;
     expiresIn := expiresIn c; notBefore := notBefore c;
     fixedPayload := fixedPayload c; kid := kid c;
     additionalHeader := additionalHeader c |}.

(** The algorithms the error of lines 107-114 lists. *)
Definition listed_algorithms (E : host) : list string :=
  unique (publicKeyAlgorithms E ++ rsaKeyAlgorithms E ++ hashAlgorithms E ++ ["none"]).

(** * Facts about the runtime model *)

Section ObjectFacts.

Implicit Types (o target src : obj) (k : string) (v : value).

Lemma get_prop_set_prop_eq o k v : get_prop (set_prop o k v) k = Some v.
Proof.
  induction o as [|[k' v'] r IH]; simpl.
  - by rewrite String.eqb_refl.
  - destruct (String.eqb k' k) eqn:Hk; simpl; by rewrite Hk.
Qed.

Lemma get_prop_set_prop_ne o k k' v :
  k ≠ k' → get_prop (set_prop o k v) k' = get_prop o k'.
Proof.
  intros Hne. induction o as [|[k0 v0] r IH]; simpl.
  - apply String.eqb_neq in Hne. by rewrite Hne.
  - destruct (String.eqb k0 k) eqn:Hk; simpl; [|by rewrite IH].
    apply String.eqb_eq in Hk as ->. apply String.eqb_neq in Hne. by rewrite Hne.
Qed.

Lemma get_prop_None o k : get_prop o k = None ↔ k ∉ o.*1.
Proof.
  induction o as [|[k' v'] r IH]; simpl.
  - split; [intros _; apply not_elem_of_nil | done].
  - rewrite not_elem_of_cons. destruct (String.eqb k' k) eqn:Hk.
    + apply String.eqb_eq in Hk as ->. split; [done|]. intros [Hc _]. by destruct Hc.
    + apply String.eqb_neq in Hk. rewrite IH. split; [by intros ?; split | by intros [_ ?]].
Qed.

(** The precedence of a merge: a key of the source wins, any other key
    keeps the target's value. *)
Lemma get_prop_assign target src k :
  NoDup src.*1 →
  get_prop (assign target src) k
  = match get_prop src k with Some v => Some v | None => get_prop target k end.
Proof.
  unfold assign. revert target.
  induction src as [|[k1 v1] r IH]; intros target Hnd; csimpl in *; [done|].
  apply NoDup_cons in Hnd as [Hk1 Hnd]. rewrite IH by done.
  destruct (String.eqb k1 k) eqn:Hk.
  - apply String.eqb_eq in Hk as ->.
    apply get_prop_None in Hk1 as ->. apply get_prop_set_prop_eq.
  - apply String.eqb_neq in Hk. by rewrite get_prop_set_prop_ne.
Qed.

(** A key the source does not have keeps the target's value. *)
Lemma get_prop_assign_absent target src k :
  get_prop src k = None → get_prop (assign target src) k = get_prop target k.
Proof.
  unfold assign. revert target.
  induction src as [|[k1 v1] r IH]; intros target; simpl; [done|].
  destruct (String.eqb k1 k) eqn:Hk; [done|]. intros Hr.
  rewrite IH by done. apply String.eqb_neq in Hk. by apply get_prop_set_prop_ne.
Qed.

Lemma set_prop_keys_notin o k v : k ∉ o.*1 → (set_prop o k v).*1 = o.*1 ++ [k].
Proof.
  induction o as [|[k' v'] r IH]; simpl; [done|].
  rewrite not_elem_of_cons. intros [Hne Hr].
  destruct (String.eqb k' k) eqn:Hk.
  - apply String.eqb_eq in Hk. congruence.
  - csimpl. by rewrite IH.
Qed.

Lemma set_prop_keys_in o k v : k ∈ o.*1 → (set_prop o k v).*1 = o.*1.
Proof.
  induction o as [|[k' v'] r IH]; simpl.
  - intros H. by apply elem_of_nil in H.
  - intros H. destruct (String.eqb k' k) eqn:Hk; [done|].
    apply String.eqb_neq in Hk. apply elem_of_cons in H as [->|H]; [done|].
    csimpl. by rewrite IH.
Qed.

(** Writing a property keeps the keys of an object distinct. *)
Lemma set_prop_NoDup o k v : NoDup o.*1 → NoDup (set_prop o k v).*1.
Proof.
  intros Hnd. destruct (decide (k ∈ o.*1)) as [Hin|Hin].
  - by rewrite set_prop_keys_in.
  - rewrite set_prop_keys_notin by done.
    apply NoDup_app. split_and!; [done| |apply NoDup_singleton].
    intros x Hx Hx'. apply list_elem_of_singleton in Hx' as ->. done.
Qed.

Lemma assign_NoDup target src : NoDup target.*1 → NoDup (assign target src).*1.
Proof.
  unfold assign. revert target.
  induction src as [|[k1 v1] r IH]; intros target Hnd; simpl; [done|].
  apply IH. by apply set_prop_NoDup.
Qed.

(** *** The order of the properties *)

Lemma key_le_total a b : key_le a b = false → key_le b a = true.
Proof. destruct a, b; simpl; try done. intros H%N.leb_gt. apply N.leb_le. lia. Qed.

Lemma key_le_trans a b c : key_le a b = true → key_le b c = true → key_le a c = true.
Proof.
  destruct a, b, c; simpl; try done.
  intros H1%N.leb_le H2%N.leb_le. apply N.leb_le. lia.
Qed.

Lemma Forall_insert_prop {A} (P : string * A → Prop) p l :
  Forall P (insert_prop p l) ↔ P p ∧ Forall P l.
Proof.
  induction l as [|q r IH]; simpl.
  - rewrite Forall_singleton. split; [by intros ?; split | by intros [? _]].
  - destruct (key_le _ _).
    + by rewrite Forall_cons.
    + rewrite !Forall_cons, IH. tauto.
Qed.

Lemma insert_prop_first {A} (p : string * A) l :
  Forall (λ q, key_le (array_index p.1) (array_index q.1) = true) l →
  insert_prop p l = p :: l.
Proof. destruct l as [|q r]; [done|]. intros [Hq _]%Forall_cons. simpl. by rewrite Hq. Qed.

Lemma insert_prop_ordered {A} (p : string * A) l : ordered l → ordered (insert_prop p l).
Proof.
  induction l as [|q r IH]; simpl; [by intros _; split|].
  intros [Hq Hr]. destruct (key_le _ _) eqn:Hle; simpl.
  - split_and!; [|done..]. apply Forall_cons. split; [done|].
    eapply Forall_impl; [exact Hq|]. intros z Hz. simpl in Hz. by eapply key_le_trans.
  - split; [|by apply IH]. apply Forall_insert_prop. split; [|done].
    by apply key_le_total.
Qed.

Lemma key_order_ordered {A} (l : list (string * A)) : ordered (key_order l).
Proof. induction l as [|p r IH]; simpl; [done|]. by apply insert_prop_ordered. Qed.

(** The properties a filter keeps are listed in the same order. *)
Lemma filter_insert_prop {A} (f : string * A → bool) p l :
  ordered l →
  List.filter f (insert_prop p l)
  = if f p then insert_prop p (List.filter f l) else List.filter f l.
Proof.
  induction l as [|q r IH]; simpl; [by destruct (f p)|].
  intros [Hq Hr]. destruct (key_le _ _) eqn:Hle; simpl.
  - destruct (f p) eqn:Hp; [|done]. destruct (f q) eqn:Hfq.
    + simpl. by rewrite Hle.
    + symmetry. apply insert_prop_first.
      apply Forall_forall. intros z Hz%list_elem_of_In%filter_In. destruct Hz as [Hz _].
      rewrite Forall_forall in Hq. eapply key_le_trans; [exact Hle|].
      apply Hq. by apply list_elem_of_In.
  - rewrite (IH Hr). destruct (f q) eqn:Hfq, (f p) eqn:Hp; simpl; by rewrite ?Hle.
Qed.

Lemma filter_key_order {A} (f : string * A → bool) l :
  List.filter f (key_order l) = key_order (List.filter f l).
Proof.
  induction l as [|p r IH]; simpl; [done|].
  rewrite filter_insert_prop by apply key_order_ordered. rewrite IH.
  by destruct (f p).
Qed.

(** Names that are not array indices are listed in the order of their
    creation. *)
Lemma key_order_no_index {A} (l : list (string * A)) :
  Forall (λ p, array_index p.1 = None) l → key_order l = l.
Proof.
  induction l as [|p r IH]; simpl; [done|].
  intros [Hp Hr]%Forall_cons. rewrite (IH Hr). apply insert_prop_first.
  eapply Forall_impl; [exact Hr|]. intros q Hq. simpl in Hq. by rewrite Hp, Hq.
Qed.

(** *** JSON.stringify of an object *)

Lemma stringify_members o :
  stringify (VObj o) = Some ("{" +:+ join "," (members_of o) +:+ "}").
Proof.
  assert (Hprops : (fix props (o : obj) : list (string * option string) :=
                      match o with
                      | [] => []
                      | (k, x) :: r => (k, stringify x) :: props r
                      end) o = serialized o).
  { induction o as [|[k x] r IH]; [done|]. simpl. by rewrite IH. }
  unfold members_of. rewrite <- Hprops. reflexivity.
Qed.

Lemma members_filter (l : list (string * option string)) :
  members (List.filter (λ kv, match kv.2 with Some _ => true | None => false end) l)
  = members l.
Proof. induction l as [|[k [t|]] r IH]; simpl; by rewrite ?IH. Qed.

Lemma serialized_filter o :
  serialized (serialized_props o)
  = List.filter (λ kv, match kv.2 with Some _ => true | None => false end) (serialized o).
Proof.
  unfold serialized, serialized_props.
  induction o as [|[k x] r IH]; simpl; [done|].
  destruct (stringify x) eqn:Hx; simpl; rewrite ?Hx; by rewrite IH.
Qed.

Lemma members_of_serialized_props o : members_of (serialized_props o) = members_of o.
Proof.
  unfold members_of. by rewrite serialized_filter, <- filter_key_order, members_filter.
Qed.

Lemma stringify_serialized_props o :
  stringify (VObj (serialized_props o)) = stringify (VObj o).
Proof. by rewrite !stringify_members, members_of_serialized_props. Qed.

Lemma get_prop_serialized_absent o k :
  k ∉ o.*1 → get_prop (serialized_props o) k = None.
Proof.
  induction o as [|[k' x] r IH]; csimpl; [done|].
  rewrite not_elem_of_cons. intros [Hne Hr].
  destruct (stringify x); simpl; [|by apply IH].
  apply not_eq_sym, String.eqb_neq in Hne. rewrite Hne. by apply IH.
Qed.

Lemma get_prop_serialized_undefined o k v :
  NoDup o.*1 → get_prop o k = Some v → stringify v = None →
  get_prop (serialized_props o) k = None.
Proof.
  induction o as [|[k' x] r IH]; csimpl; [done|].
  intros [Hk' Hnd]%NoDup_cons. destruct (String.eqb k' k) eqn:Hk.
  - apply String.eqb_eq in Hk as ->. intros [= ->] ->.
    by apply get_prop_serialized_absent.
  - intros Hget Hv. destruct (stringify x); simpl; rewrite ?Hk; by apply IH.
Qed.

End ObjectFacts.

Section StringFacts.

Implicit Types (s a b c : string) (x y z : ascii).

Lemma free_of_app x a b : free_of x (a +:+ b) = free_of x a && free_of x b.
Proof.
  induction a as [|y a IH]; simpl; [done|].
  unfold free_of in *. simpl. rewrite IH. by rewrite andb_assoc.
Qed.

Lemma split_on_free x s : free_of x s = true → split_on x s = [s].
Proof.
  induction s as [|y s IH]; simpl; [done|].
  unfold free_of; simpl. intros [Hy Hs]%andb_prop.
  unfold is_char in Hy. apply negb_true_iff in Hy. rewrite Hy.
  by rewrite (IH Hs).
Qed.

Lemma split_on_app x a b :
  free_of x a = true → split_on x (a +:+ String x b) = a :: split_on x b.
Proof.
  induction a as [|y a IH]; simpl.
  - by rewrite Ascii.eqb_refl.
  - unfold free_of; simpl. intros [Hy Ha]%andb_prop.
    unfold is_char in Hy. apply negb_true_iff in Hy. rewrite Hy.
    by rewrite (IH Ha).
Qed.

(** Three texts without a dot, joined by dots, split back into them. *)
Lemma split_on_three a b c :
  free_of "." a = true → free_of "." b = true → free_of "." c = true →
  split_on "." (a +:+ "." +:+ b +:+ "." +:+ c) = [a; b; c].
Proof.
  intros Ha Hb Hc.
  change (a +:+ "." +:+ b +:+ "." +:+ c)
    with (a +:+ String "." (b +:+ String "." c)).
  rewrite split_on_app by done. rewrite split_on_app by done.
  by rewrite split_on_free.
Qed.

Lemma string_ind3 (P : string → Prop) :
  P str_nil →
  (∀ x, P (String x str_nil)) →
  (∀ x y, P (String x (String y str_nil))) →
  (∀ x y z r, P r → P (String x (String y (String z r)))) →
  ∀ s, P s.
Proof.
  intros H0 H1 H2 H3.
  assert (Hall : ∀ s, P s ∧ (∀ x, P (String x s)) ∧ ∀ x y, P (String x (String y s))).
  { induction s as [|z s (Hs & Hs1 & Hs2)]; [by auto|].
    split_and!; [apply Hs1 | intros x; apply Hs2 | intros x y; by apply H3]. }
  intros s. apply Hall.
Qed.

Lemma b64_digit_ok (n : N) : b64_ok (b64_digit n) = true.
Proof.
  unfold b64_digit.
  assert (Hlt : (N.to_nat (N.land n 63) < 64)%nat).
  { change 63%N with (N.ones 6). rewrite N.land_ones.
    pose proof (N.mod_lt n (2 ^ 6)%N). lia. }
  revert Hlt. generalize (N.to_nat (N.land n 63)). intros i Hi.
  do 64 (destruct i as [|i]; [reflexivity|]). lia.
Qed.

Lemma b64_digit_not_dot (n : N) : negb (is_char (b64_digit n) ".") = true.
Proof. pose proof (b64_digit_ok n) as H. unfold b64_ok in H. by apply andb_prop in H as [? _]. Qed.

Lemma b64_digit_not_pad (n : N) : is_char (b64_digit n) "=" = false.
Proof.
  pose proof (b64_digit_ok n) as H. unfold b64_ok in H.
  apply andb_prop in H as [_ H]. by apply negb_true_iff in H.
Qed.

Lemma base64_free_of_dot s : free_of "." (base64 s) = true.
Proof.
  induction s as [|x|x y|x y z r IH] using string_ind3; unfold free_of in *;
    cbn [base64 str_forall]; rewrite ?b64_digit_not_dot; simpl; done.
Qed.

Lemma base64UrlEncode_free_of_dot s :
  free_of "." s = true → free_of "." (base64UrlEncode s) = true.
Proof.
  unfold free_of. induction s as [|x s IH]; simpl; [done|].
  intros [Hx Hs]%andb_prop. specialize (IH Hs).
  destruct (is_char x "="); [done|].
  destruct (is_char x "+"); [by simpl|].
  destruct (is_char x "/"); [by simpl|].
  simpl. by rewrite Hx.
Qed.

(** The encoded form of a text is empty only for the empty text. *)
Lemma base64_nil s : base64 s = str_nil ↔ s = str_nil.
Proof. split; [|by intros ->]. by destruct s as [|x [|y [|z r]]]. Qed.

Lemma base64_head s x r :
  s = String x r → ∃ n t, base64 s = String (b64_digit n) t.
Proof. intros ->. destruct r as [|y [|z r]]; simpl; eauto. Qed.

Lemma base64UrlEncode_base64_nil s : base64UrlEncode (base64 s) = str_nil ↔ s = str_nil.
Proof.
  split; [|by intros ->].
  destruct s as [|x r]; [done|].
  destruct (base64_head (String x r) x r eq_refl) as (n & t & ->).
  simpl. rewrite b64_digit_not_pad.
  by destruct (is_char (b64_digit n) "+"), (is_char (b64_digit n) "/").
Qed.

Lemma append_inv_head a b c : a +:+ b = a +:+ c → b = c.
Proof. induction a as [|x a IH]; simpl; [done|]. intros [= H]. by apply IH. Qed.

(** The first digit of the base64 of a text is the digit of the six
    leading bits of its first byte. *)
Lemma base64_first x r :
  ∃ t, base64 (String x r) = String (b64_digit (N.shiftr (N_of_ascii x) 2)) t.
Proof.
  assert (Hbyte : ∀ y n, (8 ≤ n)%N → N.shiftr (N_of_ascii y) n = 0%N).
  { intros y n Hn. apply N.shiftr_eq_0.
    pose proof (N_ascii_bounded y) as Hy.
    destruct (N.eq_dec (N_of_ascii y) 0%N) as [->|Hnz]; [simpl; lia|].
    apply N.log2_lt_pow2; [lia|].
    eapply N.lt_le_trans; [exact Hy|]. change 256%N with (2 ^ 8)%N.
    by apply N.pow_le_mono_r. }
  destruct r as [|y [|z r]]; cbn [base64]; eexists; f_equal; f_equal.
  - by rewrite N.shiftr_shiftl_r by lia.
  - rewrite N.shiftr_lor, !N.shiftr_shiftl_r by lia. simpl N.sub.
    rewrite (Hbyte y) by lia. by rewrite N.lor_0_r.
  - rewrite !N.shiftr_lor, !N.shiftr_shiftl_r by lia. simpl N.sub.
    rewrite (Hbyte y), (Hbyte z) by lia. by rewrite !N.lor_0_r.
Qed.

Lemma base64UrlEncode_first x r :
  ∃ t, base64UrlEncode (base64 (String x r))
       = String (let d := b64_digit (N.shiftr (N_of_ascii x) 2) in
                 if is_char d "+" then "-"%char else if is_char d "/" then "_"%char else d) t.
Proof.
  destruct (base64_first x r) as [t ->]. simpl. rewrite b64_digit_not_pad.
  destruct (is_char _ "+"); [by eexists|]. destruct (is_char _ "/"); by eexists.
Qed.

End StringFacts.

Section ArithmeticFacts.

Lemma rne_bounds n d : 0 < d → 2 * d * rne n d - d ≤ 2 * n ≤ 2 * d * rne n d + d.
Proof.
  intros Hd. unfold rne.
  pose proof (Z.div_mod n d ltac:(lia)) as Hn.
  pose proof (Z.mod_pos_bound n d Hd) as Hr.
  destruct (2 * (n mod d) <? d) eqn:H1; [apply Z.ltb_lt in H1; nia|].
  apply Z.ltb_ge in H1.
  destruct (d <? 2 * (n mod d)) eqn:H2; [apply Z.ltb_lt in H2; nia|].
  apply Z.ltb_ge in H2. destruct (Z.even (n / d)); nia.
Qed.

Lemma rne_integer n : rne n 1 = n.
Proof. unfold rne. by rewrite Z.div_1_r, Z.mod_1_r. Qed.

Lemma log2_quot_integer z : z ≠ 0 → exact z → log2_quot z 1 ≤ 52.
Proof.
  intros Hz Hex. unfold log2_quot, exact in *.
  destruct (1 <=? Z.abs z) eqn:H1; [|apply Z.leb_gt in H1; lia].
  rewrite Z.div_1_r.
  assert (Z.log2 (Z.abs z) < 53) by (apply Z.log2_lt_pow2; lia). lia.
Qed.

Lemma log2_quot_thousandth a : a ≠ 0 → exact a → log2_quot a 1000 ≤ 43.
Proof.
  intros Ha Hex. unfold log2_quot, exact in *.
  destruct (1000 <=? Z.abs a) eqn:H1.
  - apply Z.leb_le in H1.
    assert (0 < Z.abs a / 1000) by (apply Z.div_str_pos; lia).
    assert (Z.abs a / 1000 < 2 ^ 44).
    { apply Z.div_lt_upper_bound; [lia|]. change (2 ^ 53) with 9007199254740992 in Hex.
      change (2 ^ 44) with 17592186044416. lia. }
    assert (Z.log2 (Z.abs a / 1000) < 44) by (by apply Z.log2_lt_pow2). lia.
  - pose proof (Z.log2_up_nonneg ((1000 + Z.abs a - 1) / Z.abs a)). lia.
Qed.

(** An exact integer is a double. *)
Lemma double_of_integer z : exact z → floor_double (nearest_double z 1) = z.
Proof.
  intros Hex. unfold nearest_double.
  destruct (z =? 0) eqn:Hz; [apply Z.eqb_eq in Hz; by subst|].
  apply Z.eqb_neq in Hz. pose proof (log2_quot_integer z Hz Hex) as He.
  cbv zeta. destruct (0 <=? log2_quot z 1 - 52) eqn:H0.
  - apply Z.leb_le in H0. assert (Heq : log2_quot z 1 - 52 = 0) by lia.
    rewrite Heq. unfold floor_double. change (1 * 2 ^ 0) with 1.
    rewrite rne_integer. simpl. lia.
  - unfold floor_double. rewrite H0. apply Z.leb_gt in H0.
    rewrite rne_integer. apply Z.div_mul.
    apply Z.pow_nonzero; lia.
Qed.

Lemma double_mul_exact a b : exact (a * b) → double_mul a b = a * b.
Proof. apply double_of_integer. Qed.

Lemma double_add_exact a b : exact (a + b) → double_add a b = a + b.
Proof. apply double_of_integer. Qed.

(** The quotient of an exact integer by 1000 has at least 9 bits after
    the binary point, so rounding it moves it by less than a
    thousandth, and not across an integer. *)
Lemma double_floor_div_exact a : exact a → double_floor_div a 1000 = a / 1000.
Proof.
  intros Hex. unfold double_floor_div, nearest_double.
  destruct (a =? 0) eqn:Ha; [apply Z.eqb_eq in Ha; by subst|].
  apply Z.eqb_neq in Ha. pose proof (log2_quot_thousandth a Ha Hex) as He.
  cbv zeta. destruct (0 <=? log2_quot a 1000 - 52) eqn:H0; [apply Z.leb_le in H0; lia|].
  unfold floor_double. rewrite H0.
  set (s := - (log2_quot a 1000 - 52)). assert (Hs : 9 ≤ s) by (subst s; lia).
  assert (HP : 512 ≤ 2 ^ s).
  { change 512 with (2 ^ 9). apply Z.pow_le_mono_r; lia. }
  pose proof (rne_bounds (a * 2 ^ s) 1000 ltac:(lia)) as Hm.
  pose proof (Z.div_mod a 1000 ltac:(lia)) as Hdiv.
  pose proof (Z.mod_pos_bound a 1000 ltac:(lia)) as Hr.
  symmetry. apply Z.div_unique with (r := rne (a * 2 ^ s) 1000 - 2 ^ s * (a / 1000)).
  - left. nia.
  - lia.
Qed.

End ArithmeticFacts.

(** * Facts about the signer *)

Section SignerFacts.

Variable E : host.

Ltac run :=
  unfold encodePayload, read_iat, assign_in_place, spread_new, read_object, write_object,
    new_object, lift, throw, mbind, M_bind, mret, M_ret;
  cbn [decode_buffer own_props].

Lemma stringify_object (o : obj) : ∃ body, stringify (VObj o) = Some (String "{" body).
Proof. simpl. eauto. Qed.

Lemma stringify_array (l : list value) : ∃ body, stringify (VArr l) = Some (String "[" body).
Proof. simpl. eauto. Qed.

(** *** Decoding a buffer *)

Lemma decode_buffer_other enc payload :
  is_buffer payload = false → decode_buffer E enc payload = Ok payload.
Proof. by destruct payload as [[]|]. Qed.

Lemma decode_buffer_throw enc payload e :
  decode_buffer E enc payload = Throw e →
  e = unknownEncodingError ∧ ∃ b, payload = Val (VBuf b) ∧ bufferToString E enc b = None.
Proof.
  destruct payload as [[| |?|?| |?|?|?|b|?]|]; simpl; try done.
  destruct (bufferToString E enc b) eqn:Hb; [done|]. intros [= <-]. eauto.
Qed.

Lemma decode_buffer_ok enc payload p :
  decode_buffer E enc payload = Ok p →
  (is_buffer payload = false ∧ p = payload)
  ∨ ∃ b s, payload = Val (VBuf b) ∧ bufferToString E enc b = Some s ∧ p = Val (VStr s).
Proof.
  destruct payload as [[| |?|?| |?|?|?|b|?]|]; simpl; try (intros [= <-]; by left).
  destruct (bufferToString E enc b) as [s|] eqn:Hb; [|done]. intros [= <-]. right. eauto.
Qed.

(** *** encodeHeader *)

Lemma encodeHeader_accepts alg kid ah payload enc p :
  arg_typeof payload = TString ∨ arg_typeof payload = TObject →
  decode_buffer E enc payload = Ok p →
  ∃ body,
    stringify (VObj (header_of alg kid ah p)) = Some (String "{" body)
    ∧ encodeHeader E alg kid ah payload enc
      = Ok (base64 (String "{" body), header_of alg kid ah p).
Proof.
  intros Hty Hp.
  destruct (stringify_object (header_of alg kid ah p)) as [body Hj].
  exists body. split; [done|]. unfold encodeHeader. rewrite Hp, Hj.
  by destruct Hty as [-> | ->].
Qed.

Lemma encodeHeader_undecodable alg kid ah payload enc e :
  decode_buffer E enc payload = Throw e →
  encodeHeader E alg kid ah payload enc = Throw e.
Proof.
  intros Hp. destruct (decode_buffer_throw _ _ _ Hp) as (_ & b & -> & _).
  unfold encodeHeader. by rewrite Hp.
Qed.

Lemma encodeHeader_rejects alg kid ah payload enc :
  arg_typeof payload ≠ TString → arg_typeof payload ≠ TObject →
  encodeHeader E alg kid ah payload enc = Throw invalidTypeError.
Proof.
  intros Hs Ho. unfold encodeHeader.
  by destruct (arg_typeof payload).
Qed.

Lemma encodeHeader_ok_inv alg kid ah payload enc hd header :
  encodeHeader E alg kid ah payload enc = Ok (hd, header) →
  (arg_typeof payload = TString ∨ arg_typeof payload = TObject)
  ∧ ∃ p, decode_buffer E enc payload = Ok p
         ∧ header = header_of alg kid ah p
         ∧ ∃ body, stringify (VObj header) = Some (String "{" body)
                   ∧ hd = base64 (String "{" body).
Proof.
  intros Hok.
  assert (Hty : arg_typeof payload = TString ∨ arg_typeof payload = TObject).
  { destruct (arg_typeof payload) eqn:Hty; auto;
      rewrite encodeHeader_rejects in Hok by (rewrite Hty; done); done. }
  split; [done|].
  destruct (decode_buffer E enc payload) as [p|e] eqn:Hp;
    [|by rewrite (encodeHeader_undecodable _ _ _ _ _ _ Hp) in Hok].
  destruct (encodeHeader_accepts alg kid ah payload enc p Hty Hp) as (body & Hj & Heq).
  rewrite Heq in Hok. injection Hok as <- <-.
  exists p. split_and!; [done..|]. by exists body.
Qed.

(** What [encodeHeader] throws: the error of the type guard, or the
    error of decoding a buffer. *)
Lemma encodeHeader_throw_inv alg kid ah payload enc e :
  encodeHeader E alg kid ah payload enc = Throw e →
  (e = invalidTypeError ∧ arg_typeof payload ≠ TString ∧ arg_typeof payload ≠ TObject)
  ∨ (e = unknownEncodingError
     ∧ ∃ b, payload = Val (VBuf b) ∧ bufferToString E enc b = None).
Proof.
  intros Hthrow.
  destruct (decide (arg_typeof payload = TString ∨ arg_typeof payload = TObject)) as [Hty|Hty].
  - right. destruct (decode_buffer E enc payload) as [p|e'] eqn:Hp.
    + destruct (encodeHeader_accepts alg kid ah payload enc p Hty Hp) as (? & _ & Heq).
      by rewrite Heq in Hthrow.
    + rewrite (encodeHeader_undecodable _ _ _ _ _ _ Hp) in Hthrow. injection Hthrow as <-.
      by apply decode_buffer_throw.
  - left. rewrite encodeHeader_rejects in Hthrow; [injection Hthrow as <-|..].
    + split; [done|]. split; intros Heq; apply Hty; auto.
    + intros Heq; apply Hty; auto.
    + intros Heq; apply Hty; auto.
Qed.

(** *** encodePayload *)

Lemma encodePayload_text now payload enc fixed nots exp nbf mut h s :
  decode_buffer E enc payload = Ok (Val (VStr s)) →
  encodePayload E now payload enc fixed nots exp nbf mut h
  = (Ok (base64UrlEncode (base64 s)), h).
Proof. intros Hd. unfold encodePayload, lift, mbind, M_bind. by rewrite Hd. Qed.

Lemma encodePayload_undecodable now payload enc fixed nots exp nbf mut h e :
  decode_buffer E enc payload = Throw e →
  encodePayload E now payload enc fixed nots exp nbf mut h = (Throw e, h).
Proof. intros Hd. unfold encodePayload, lift, mbind, M_bind. by rewrite Hd. Qed.

Lemma encodePayload_ref now l enc fixed nots exp nbf mut h :
  let merged := merged_payload E now (default [] (h !! l)) fixed nots exp nbf in
  ∃ body,
    stringify (VObj merged) = Some (String "{" body)
    ∧ encodePayload E now (Ref l) enc fixed nots exp nbf mut h
      = (Ok (base64UrlEncode (base64 (String "{" body))),
         if truthy mut then <[l := merged]> h else <[fresh (dom h) := merged]> h).
Proof.
  intros merged. destruct (stringify_object merged) as [body Hj].
  exists body. split; [done|]. subst merged. unfold merged_payload in *. run.
  destruct (truthy mut); run; by rewrite Hj.
Qed.

Lemma encodePayload_object now o enc fixed nots exp nbf mut h :
  let merged := merged_payload E now o fixed nots exp nbf in
  ∃ body,
    stringify (VObj merged) = Some (String "{" body)
    ∧ encodePayload E now (Val (VObj o)) enc fixed nots exp nbf mut h
      = (Ok (base64UrlEncode (base64 (String "{" body))),
         if truthy mut then h else <[fresh (dom h) := merged]> h).
Proof.
  intros merged. destruct (stringify_object merged) as [body Hj].
  exists body. split; [done|]. subst merged. unfold merged_payload in *. run.
  destruct (truthy mut); run; by rewrite Hj.
Qed.

Lemma encodePayload_null now enc fixed nots exp nbf mut h :
  encodePayload E now (Val VNull) enc fixed nots exp nbf mut h
  = (Throw (TypeError "payload.iat"), h).
Proof. reflexivity. Qed.

(** An array has no [iat] among its elements, so the clock is the
    baseline. With [mutatePayload] the claims are written to the array
    itself, and [JSON.stringify] writes the elements of an array only;
    without it they are written to a new object that has the elements
    under their indices. *)
Lemma encodePayload_array now l enc fixed nots exp nbf mut h :
  let merged := assign (assign (index_props 0 l) fixed)
                  (additionalPayload_of now nots exp nbf) in
  ∃ body body',
    stringify (VArr l) = Some (String "[" body)
    ∧ stringify (VObj merged) = Some (String "{" body')
    ∧ encodePayload E now (Val (VArr l)) enc fixed nots exp nbf mut h
      = if truthy mut then (Ok (base64UrlEncode (base64 (String "[" body))), h)
        else (Ok (base64UrlEncode (base64 (String "{" body'))),
              <[fresh (dom h) := merged]> h).
Proof.
  intros merged. destruct (stringify_array l) as [body Hj].
  destruct (stringify_object merged) as [body' Hj'].
  exists body, body'. split_and!; [done..|]. subst merged. run.
  change (iat_ms E VUndefined now) with now.
  destruct (truthy mut); run; by rewrite ?Hj, ?Hj'.
Qed.

(** Whatever payload [encodeHeader] lets through, the segment is the
    URL-safe form of the base64 of a text, and that text is empty only
    for an empty string payload. *)
Lemma encodePayload_segment now payload enc fixed nots exp nbf mut h seg h' :
  arg_typeof payload = TString ∨ arg_typeof payload = TObject →
  encodePayload E now payload enc fixed nots exp nbf mut h = (Ok seg, h') →
  ∃ text, seg = base64UrlEncode (base64 text)
          ∧ (text = str_nil ↔ decode_buffer E enc payload = Ok (Val (VStr str_nil))).
Proof.
  intros Hty Hrun. destruct payload as [v|l].
  - destruct v as [| |b|n| |s|l|o|b|f]; simpl in Hty;
      try (destruct Hty; discriminate).
    + rewrite (encodePayload_text _ _ _ _ _ _ _ _ _ s) in Hrun by done.
      injection Hrun as <- <-. exists s. split; [done|]. simpl.
      split; [by intros -> | by intros [= ->]].
    + destruct (encodePayload_array now l enc fixed nots exp nbf mut h)
        as (body & body' & _ & _ & Heq).
      rewrite Heq in Hrun. destruct (truthy mut); injection Hrun as <- <-.
      * exists (String "[" body). by split.
      * exists (String "{" body'). by split.
    + destruct (encodePayload_object now o enc fixed nots exp nbf mut h) as (body & _ & Heq).
      rewrite Heq in Hrun. injection Hrun as <- <-.
      exists (String "{" body). by split.
    + destruct (bufferToString E enc b) as [s|] eqn:Hb.
      * rewrite (encodePayload_text _ _ _ _ _ _ _ _ _ s) in Hrun by (simpl; by rewrite Hb).
        injection Hrun as <- <-. exists s. split; [done|]. simpl. rewrite Hb.
        split; [by intros -> | by intros [= ->]].
      * rewrite (encodePayload_undecodable _ _ _ _ _ _ _ _ _ unknownEncodingError) in Hrun
          by (simpl; by rewrite Hb).
        done.
  - destruct (encodePayload_ref now l enc fixed nots exp nbf mut h) as (body & _ & Heq).
    rewrite Heq in Hrun. injection Hrun as <- <-.
    exists (String "{" body). by split.
Qed.

(** For a payload that is not an array, the segment does not depend on
    [mutatePayload]. *)
Lemma encodePayload_mutate_irrelevant now payload enc fixed nots exp nbf v1 v2 h :
  arg_typeof payload = TString ∨ arg_typeof payload = TObject →
  is_array payload = false →
  fst (encodePayload E now payload enc fixed nots exp nbf v1 h)
  = fst (encodePayload E now payload enc fixed nots exp nbf v2 h).
Proof.
  intros Hty Harr. destruct payload as [v|l].
  - destruct v as [| |b|n| |s|l|o|b|f]; simpl in Hty, Harr;
      try (destruct Hty; discriminate); try done.
    + destruct (encodePayload_object now o enc fixed nots exp nbf v1 h) as (body1 & Hj1 & ->).
      destruct (encodePayload_object now o enc fixed nots exp nbf v2 h) as (body2 & Hj2 & ->).
      rewrite Hj1 in Hj2. by injection Hj2 as <-.
    + destruct (bufferToString E enc b) as [s|] eqn:Hb.
      * by rewrite !(encodePayload_text _ _ _ _ _ _ _ _ _ s) by (simpl; by rewrite Hb).
      * by rewrite !(encodePayload_undecodable _ _ _ _ _ _ _ _ _ unknownEncodingError)
          by (simpl; by rewrite Hb).
  - destruct (encodePayload_ref now l enc fixed nots exp nbf v1 h) as (body1 & Hj1 & ->).
    destruct (encodePayload_ref now l enc fixed nots exp nbf v2 h) as (body2 & Hj2 & ->).
    rewrite Hj1 in Hj2. by injection Hj2 as <-.
Qed.

(** *** signJwt *)

Lemma signs_inv c now payload h token h' :
  signs E c now payload h token h' →
  ∃ hd header key w pl signature,
    encodeHeader E (algorithm c) (kid c) (additionalHeader c) payload (encoding c)
    = Ok (hd, header)
    ∧ encodePayload E now payload (encoding c) (fixedPayload c) (noTimestamp c)
        (expiresIn c) (notBefore c) (mutatePayload c) h = (Ok pl, h')
    ∧ createSignature E (algorithm c) key hd pl w = Ok signature
    ∧ token = hd +:+ "." +:+ pl +:+ "." +:+ base64UrlEncode signature.
Proof.
  intros [Hrun|Hrun]; revert Hrun.
  - unfold signJwt, lift, mbind, M_bind, mret, M_ret.
    destruct (encodeHeader E _ _ _ _ _) as [[hd header]|e]; [|done].
    destruct (encodePayload E _ _ _ _ _ _ _ _ h) as [[pl|e] h1]; [|done].
    destruct (createSignature E _ _ _ _ _) as [signature|e] eqn:Hsig; [|done].
    intros [= <- <-]. by exists hd, header, (secret c), VUndefined, pl, signature.
  - unfold signJwt_try, lift, mbind, M_bind, mret, M_ret.
    destruct (encodeHeader E _ _ _ _ _) as [[hd header]|e]; [|done].
    destruct (currentSecret E c header) as [key|e]; [|done].
    destruct (encodePayload E _ _ _ _ _ _ _ _ h) as [[pl|e] h1]; [|done].
    destruct (createSignature E _ _ _ _ _) as [signature|e] eqn:Hsig; [|done].
    intros [= <- <-]. by exists hd, header, key, (useWorkerThreads c), pl, signature.
Qed.

(** The failures of the [try] block before the payload is encoded. *)
Lemma signJwt_try_rejects c now payload h :
  arg_typeof payload ≠ TString → arg_typeof payload ≠ TObject →
  signJwt_try E c now payload h = (Throw invalidTypeError, h).
Proof.
  intros Hs Ho. unfold signJwt_try, lift, mbind, M_bind.
  by rewrite encodeHeader_rejects.
Qed.

Lemma signJwt_try_undecodable c now b h :
  bufferToString E (encoding c) b = None →
  signJwt_try E c now (Val (VBuf b)) h = (Throw unknownEncodingError, h).
Proof.
  intros Hb. unfold signJwt_try, lift, mbind, M_bind.
  rewrite (encodeHeader_undecodable _ _ _ _ _ unknownEncodingError); [done|].
  simpl. by rewrite Hb.
Qed.

Lemma signJwt_try_secret_failure c now payload h hd header cause :
  encodeHeader E (algorithm c) (kid c) (additionalHeader c) payload (encoding c)
  = Ok (hd, header) →
  typeof (secret c) = TFunction →
  getAsyncSecret E (secret c) header = Throw cause →
  signJwt_try E c now payload h
  = (Throw (TokenError secretFetchingError "Cannot fetch secret." (Some cause)), h).
Proof.
  intros Hhd Hf Hkey. unfold signJwt_try, currentSecret, is_type, lift, mbind, M_bind.
  by rewrite Hhd, Hf, Hkey.
Qed.

(** *** The computed claims and the merge *)

Lemma additionalPayload_NoDup iat nots exp nbf :
  NoDup (additionalPayload_of iat nots exp nbf).*1.
Proof.
  unfold additionalPayload_of.
  destruct (truthy nots), exp, nbf; simpl; compute_done.
Qed.

Lemma additionalPayload_iat iat nots exp nbf :
  get_prop (additionalPayload_of iat nots exp nbf) "iat"
  = if truthy nots then None else Some (VNum (iat / 1000)).
Proof. unfold additionalPayload_of. by destruct (truthy nots), exp, nbf. Qed.

Lemma additionalPayload_exp iat nots exp nbf :
  get_prop (additionalPayload_of iat nots exp nbf) "exp"
  = (λ e, VNum ((iat + e) / 1000)) <$> exp.
Proof. unfold additionalPayload_of. by destruct (truthy nots), exp, nbf. Qed.

Lemma additionalPayload_nbf iat nots exp nbf :
  get_prop (additionalPayload_of iat nots exp nbf) "nbf"
  = (λ b, VNum ((iat + b) / 1000)) <$> nbf.
Proof. unfold additionalPayload_of. by destruct (truthy nots), exp, nbf. Qed.

Lemma additionalPayload_other iat nots exp nbf k :
  k ≠ "iat" → k ≠ "exp" → k ≠ "nbf" →
  get_prop (additionalPayload_of iat nots exp nbf) k = None.
Proof.
  intros H1 H2 H3. apply get_prop_None. unfold additionalPayload_of.
  destruct (truthy nots), exp, nbf; simpl; set_solver.
Qed.

(** The order of precedence of the merge of lines 53 and 55: a computed
    claim first, then a property of the fixed payload, then the caller's. *)
Lemma merged_payload_precedence now o fixed nots exp nbf k :
  NoDup fixed.*1 →
  get_prop (merged_payload E now o fixed nots exp nbf) k
  = match get_prop (additionalPayload_of (iat_ms E (prop o "iat") now) nots exp nbf) k with
    | Some v => Some v
    | None => match get_prop fixed k with
              | Some v => Some v
              | None => get_prop o k
              end
    end.
Proof.
  intros Hnd. unfold merged_payload.
  rewrite get_prop_assign by apply additionalPayload_NoDup.
  by rewrite (get_prop_assign o fixed) by done.
Qed.

Lemma iat_ms_number n now : n ≠ 0 → iat_ms E (VNum n) now = n * 1000.
Proof.
  intros Hn. unfold iat_ms; simpl.
  destruct (n * 1000 =? 0) eqn:Hz; [|done]. apply Z.eqb_eq in Hz. lia.
Qed.

Lemma iat_ms_absent now : iat_ms E VUndefined now = now.
Proof. reflexivity. Qed.

Lemma iat_ms_zero now : iat_ms E (VNum 0) now = now.
Proof. reflexivity. Qed.

End SignerFacts.

Section CreateSignerFacts.

Variable E : host.


Lemma createSigner_unsupported options :
  supported E (option_of options "algorithm") = false →
  createSigner E options = Throw (algorithmError E).
Proof.
  unfold supported. intros Hs.
  apply orb_false_elim in Hs as [Hs H4]. apply orb_false_elim in Hs as [Hs H3].
  apply orb_false_elim in Hs as [H1 H2].
  unfold createSigner. cbv zeta. by rewrite H1, H2, H3, H4.
Qed.

(** A signer that was returned: its algorithm passed the check of lines
    101-106, its closure holds the options as destructured, and it is the
    synchronous function exactly under the condition of line 174. *)
Lemma createSigner_inv options s :
  createSigner E options = Ok s →
  supported E (option_of options "algorithm") = true
  ∧ config_of s
    = {| secret := option_of options "secret";
         algorithm := option_of options "algorithm";
         encoding := option_of options "encoding";
         noTimestamp := option_of options "noTimestamp";
         mutatePayload := option_of options "mutatePayload";
         useWorkerThreads := option_of options "useWorkerThreads";
         expiresIn := span (option_of options "expiresIn");
         notBefore := span (option_of options "notBefore");
         fixedPayload := fixedPayload_of (option_of options "jti") (option_of options "aud")
                           (option_of options "iss") (option_of options "sub")
                           (option_of options "nonce");
         kid := option_of options "kid";
         additionalHeader := option_of options "header" |}
  ∧ is_sync s
    = negb (is_type (option_of options "secret") TFunction)
      && (negb (truthy (option_of options "useWorkerThreads"))
          || negb (supportsWorkerThreads E)).
Proof.
  intros Hok.
  destruct (supported E (option_of options "algorithm")) eqn:Hs;
    [|by rewrite createSigner_unsupported in Hok].
  split; [done|]. revert Hok. unfold createSigner, reject_if. cbv zeta.
  repeat match goal with
         | |- context [if ?b then Throw _ else _] => destruct b; [done|]
         end.
  destruct (negb (is_type _ TFunction) && _); by intros [= <-].
Qed.

End CreateSignerFacts.

(** * The model against the repository's own token *)

(** The HS512 token of the verify benchmark was signed for the payload
    [{a: 1, b: 2, c: 3}] with the secret [secretsecretsecret] within the
    second 1579521212: its header and payload segments are the ones the
    model computes. *)
Example benchmark_hs512_segments :
  fst <$> sign_once host0
            (VObj [("secret", VStr "secretsecretsecret"); ("algorithm", VStr "HS512")])
            1579521212000 (Val (VObj [("a", VNum 1); ("b", VNum 2); ("c", VNum 3)])) ∅
  = Some (Ok "eyJhbGciOiJIUzUxMiIsInR5cCI6IkpXVCJ9.eyJhIjoxLCJiIjoyLCJjIjozLCJpYXQiOjE1Nzk1MjEyMTJ9.c2lnbg").
Proof. by vm_compute. Qed.

(** The signers used in the evaluations below are the ones
    [createSigner] returns for these options. *)
Example deferred0_created :
  createSigner host0 (VObj [("secret", VFun "fetchSecret")]) = Ok deferred0.
Proof. reflexivity. Qed.

Example mutating0_created (mutate : bool) :
  createSigner host0
    (VObj [("secret", VStr "secretsecretsecret"); ("mutatePayload", VBool mutate);
           ("expiresIn", VNum 60000); ("iss", VStr "me")])
  = Ok (SyncSigner (mutating0 mutate)).
Proof. by destruct mutate. Qed.

Example overriding0_created :
  createSigner host0
    (VObj [("secret", VStr "secretsecretsecret"); ("kid", VStr "k1");
           ("header", VObj [("alg", VStr "none"); ("typ", VStr "X"); ("kid", VStr "k2")])])
  = Ok (SyncSigner overriding0).
Proof. reflexivity. Qed.

Example unsigned0_created :
  createSigner host0 (VObj [("secret", VStr "secretsecretsecret"); ("algorithm", VStr "none")])
  = Ok (SyncSigner unsigned0).
Proof. reflexivity. Qed.

(** * The claims *)

(** ** C1: the merge of the fixed claims *)

(** C1, the code against the claim: a signer created without the options
    jti, aud, iss, sub and nonce still merges all five names, each with
    the value [undefined], over the caller's payload. Whatever the payload
    held under such a name is gone from the merged object, and so from the
    token: the payload [{jti: 'abc', a: 1}] is encoded as
    [{a: 1, iat: 1579521212}]. *)
Theorem C1_unconfigured_claim_erased E now o nots exp nbf :
  Forall (λ k, get_prop (merged_payload E now o no_fixed_claims nots exp nbf) k
               = Some VUndefined)
         ["jti"; "aud"; "iss"; "sub"; "nonce"]
  ∧ fst <$> sign_once host0 (VObj [("secret", VStr "secretsecretsecret")]) 1579521212345
                      (Val (VObj [("jti", VStr "abc"); ("a", VNum 1)])) ∅
    = Some (Ok "eyJhbGciOiJIUzI1NiIsInR5cCI6IkpXVCJ9.eyJhIjoxLCJpYXQiOjE1Nzk1MjEyMTJ9.c2lnbg")
  ∧ (λ t, base64UrlEncode (base64 t))
      <$> stringify (VObj [("a", VNum 1); ("iat", VNum 1579521212)])
    = Some "eyJhIjoxLCJpYXQiOjE1Nzk1MjEyMTJ9".
Proof.
  split_and!; [|by vm_compute..].
  assert (Hnd : NoDup no_fixed_claims.*1) by compute_done.
  repeat constructor; rewrite merged_payload_precedence by done;
    by rewrite additionalPayload_other.
Qed.

(** ** C2: the header segment *)

(** C2, the code against the claim: when [encodeHeader] does not throw
    (the error of the type guard, or the error of decoding a buffer), it
    returns the padded standard base64 of the header JSON and never
    passes it through [base64UrlEncode], as [encodePayload] and the
    signature do. With the key id [1] the header segment ends in [==]; a
    key id can also bring [+] and [/] into it. *)
Theorem C2_header_segment_is_plain_base64 E alg kid ah payload enc :
  (encodeHeader E alg kid ah payload enc = Throw invalidTypeError
   ∨ encodeHeader E alg kid ah payload enc = Throw unknownEncodingError
   ∨ ∃ p json,
       decode_buffer E enc payload = Ok p
       ∧ stringify (VObj (header_of alg kid ah p)) = Some json
       ∧ encodeHeader E alg kid ah payload enc
         = Ok (base64 json, header_of alg kid ah p))
  ∧ encodeHeader host0 (VStr "HS256") (VStr "1") VUndefined (Val (VObj [])) VUndefined
    = Ok ("eyJhbGciOiJIUzI1NiIsInR5cCI6IkpXVCIsImtpZCI6IjEifQ==",
          [("alg", VStr "HS256"); ("typ", VStr "JWT"); ("kid", VStr "1")])
  ∧ base64UrlEncode "eyJhbGciOiJIUzI1NiIsInR5cCI6IkpXVCIsImtpZCI6IjEifQ=="
    = "eyJhbGciOiJIUzI1NiIsInR5cCI6IkpXVCIsImtpZCI6IjEifQ"
  ∧ fst <$> sign_once host0 (VObj [("secret", VStr "secretsecretsecret"); ("kid", VStr "1")])
                      1579521212345 (Val (VObj [("a", VNum 1)])) ∅
    = Some (Ok "eyJhbGciOiJIUzI1NiIsInR5cCI6IkpXVCIsImtpZCI6IjEifQ==.eyJhIjoxLCJpYXQiOjE1Nzk1MjEyMTJ9.c2lnbg")
  ∧ fst <$> encodeHeader_segment host0 (VStr "a???>>>")
    = Some "eyJhbGciOiJIUzI1NiIsInR5cCI6IkpXVCIsImtpZCI6ImE/Pz8+Pj4ifQ==".
Proof.
  split_and!; [|by vm_compute..].
  destruct (encodeHeader E alg kid ah payload enc) as [[hd header]|e] eqn:Hhd.
  - right; right.
    apply encodeHeader_ok_inv in Hhd as (_ & p & Hp & -> & body & Hj & ->).
    by exists p, (String "{" body).
  - apply encodeHeader_throw_inv in Hhd as [(-> & _)|(-> & _)]; auto.
Qed.

(** ** C3: the segments of a token *)

(** C3, counterexample: the default signer (HS256) accepts the empty
    string as a payload, and the token it returns has an empty payload
    segment between its two dots. *)
Lemma C3_empty_payload_segment :
  sign_once host0 (VObj [("secret", VStr "secretsecretsecret")]) 1579521212345
            (Val (VStr str_nil)) ∅
  = Some (Ok "eyJhbGciOiJIUzI1NiJ9..c2lnbg", ∅)
  ∧ split_on "." "eyJhbGciOiJIUzI1NiJ9..c2lnbg" = ["eyJhbGciOiJIUzI1NiJ9"; str_nil; "c2lnbg"]
  ∧ ¬ three_nonempty_segments "eyJhbGciOiJIUzI1NiJ9..c2lnbg".
Proof.
  split_and!; [by vm_compute | by vm_compute |].
  intros (a & b & c & Hsplit & _ & Hb & _).
  vm_compute in Hsplit. injection Hsplit as _ <- _. done.
Qed.

(** C3, as amended: every token [sign] returns splits on the dot into
    exactly three segments; the header segment is never empty, the
    payload segment is empty exactly for a payload that is (or decodes
    to) the empty text, and the signature segment is the URL-safe form of
    what [createSignature] returned, so it is empty when that is empty,
    as the spec has it for [none]. *)
Theorem C3_token_three_segments E c now payload h token h' :
  dotless_signatures E →
  signs E c now payload h token h' →
  ∃ hd pl sg,
    split_on "." token = [hd; pl; sg]
    ∧ hd ≠ str_nil
    ∧ (pl = str_nil ↔ decode_buffer E (encoding c) payload = Ok (Val (VStr str_nil)))
    ∧ ∃ key w signature,
        createSignature E (algorithm c) key hd pl w = Ok signature
        ∧ sg = base64UrlEncode signature.
Proof.
  intros Hdot Hsigns.
  destruct (signs_inv E _ _ _ _ _ _ Hsigns)
    as (hd & header & key & w & pl & signature & Hhd & Hpl & Hsig & ->).
  apply encodeHeader_ok_inv in Hhd as (Hty & _ & _ & _ & body & _ & ->).
  destruct (encodePayload_segment E _ _ _ _ _ _ _ _ _ _ _ Hty Hpl) as (text & -> & Htext).
  exists (base64 (String "{" body)), (base64UrlEncode (base64 text)),
    (base64UrlEncode signature).
  split_and!.
  - apply split_on_three.
    + apply base64_free_of_dot.
    + apply base64UrlEncode_free_of_dot, base64_free_of_dot.
    + apply base64UrlEncode_free_of_dot. by eapply Hdot.
  - by rewrite base64_nil.
  - by rewrite base64UrlEncode_base64_nil.
  - by exists key, w, signature.
Qed.

Lemma host0_dotless : dotless_signatures host0.
Proof.
  intros alg key hd pl w signature. simpl.
  destruct (is_string alg "none"); by intros [= <-].
Defined.

Lemma C3_token_three_segments_witness :
  ∃ hd pl sg,
    split_on "." "eyJhbGciOiJub25lIiwidHlwIjoiSldUIn0=.eyJhIjoxLCJpYXQiOjE1Nzk1MjEyMTJ9." = [hd; pl; sg]
    ∧ hd ≠ str_nil
    ∧ (pl = str_nil ↔ Ok (Val (VObj [("a", VNum 1)])) = Ok (Val (VStr str_nil)))
    ∧ ∃ key w signature,
        createSignature host0 (VStr "none") key hd pl w = Ok signature
        ∧ sg = base64UrlEncode signature.
Proof.
  apply (C3_token_three_segments host0 unsigned0 1579521212345
           (Val (VObj [("a", VNum 1)])) ∅ _
           (snd (signJwt host0 unsigned0 1579521212345 (Val (VObj [("a", VNum 1)])) ∅))).
  - exact host0_dotless.
  - left. by vm_compute.
Defined.

(** The token of the signer for [none] ends with its second dot: the
    signature segment is empty. *)
Example unsigned_token_has_empty_signature :
  fst (signJwt host0 unsigned0 1579521212345 (Val (VObj [("a", VNum 1)])) ∅)
  = Ok "eyJhbGciOiJub25lIiwidHlwIjoiSldUIn0=.eyJhIjoxLCJpYXQiOjE1Nzk1MjEyMTJ9."
  ∧ split_on "." "eyJhbGciOiJub25lIiwidHlwIjoiSldUIn0=.eyJhIjoxLCJpYXQiOjE1Nzk1MjEyMTJ9."
    = ["eyJhbGciOiJub25lIiwidHlwIjoiSldUIn0="; "eyJhIjoxLCJpYXQiOjE1Nzk1MjEyMTJ9"; str_nil].
Proof. split; by vm_compute. Qed.

(** ** C4: the baseline of the time claims *)

(** C4, the code against the claim: a payload whose [iat] is the number 0
    does not keep it. [payload.iat * 1000] is 0, which is falsy, so line 34
    takes the clock, and the token carries the clock's second: at the
    clock reading 1579521212345 the payload [{iat: 0}] is encoded as
    [{iat: 1579521212}]. *)
Theorem C4_zero_iat_replaced_by_clock E now :
  iat_ms E (VNum 0) now = now
  ∧ get_prop (merged_payload E now [("iat", VNum 0)] no_fixed_claims VUndefined None None) "iat"
    = Some (VNum (now / 1000))
  ∧ fst <$> sign_once host0 (VObj [("secret", VStr "secretsecretsecret")]) 1579521212345
                      (Val (VObj [("iat", VNum 0)])) ∅
    = Some (Ok "eyJhbGciOiJIUzI1NiIsInR5cCI6IkpXVCJ9.eyJpYXQiOjE1Nzk1MjEyMTJ9.c2lnbg")
  ∧ (λ t, base64UrlEncode (base64 t)) <$> stringify (VObj [("iat", VNum 1579521212)])
    = Some "eyJpYXQiOjE1Nzk1MjEyMTJ9"
  ∧ (λ t, base64UrlEncode (base64 t)) <$> stringify (VObj [("iat", VNum 0)])
    = Some "eyJpYXQiOjB9".
Proof.
  split_and!; [done| |by vm_compute..].
  rewrite merged_payload_precedence by compute_done.
  by rewrite additionalPayload_iat.
Qed.

(** ** C5: the synchronous and the deferred signer *)

(** C5, counterexample: a signer whose secret is a callback is the
    deferred one. Called with a number and a callback it does not reject:
    the callback receives the [TokenError] and the promise resolves to
    what the callback returned, which is not the token. Created with an
    encoding the runtime does not know and called with a buffer, it
    rejects with the [TypeError] of [toString], not with a [TokenError]. *)
Lemma C5_deferred_failures :
  sign_once_async host0 (VObj [("secret", VFun "fetchSecret")]) 1579521212345
                  (Val (VNum 5)) (Some (λ _, Ok VUndefined)) ∅
  = Some ({| settled := Ok VUndefined; calls := [CbError invalidTypeError] |}, ∅)
  ∧ ¬ resolves_or_rejects_tagged
        {| settled := Ok VUndefined; calls := [CbError invalidTypeError] |}
  ∧ sign_once_async host0 (VObj [("secret", VFun "fetchSecret"); ("encoding", VStr "utf9")])
                    1579521212345 (Val (VBuf "abc")) None ∅
    = Some ({| settled := Throw unknownEncodingError; calls := [] |}, ∅)
  ∧ ¬ resolves_or_rejects_tagged {| settled := Throw unknownEncodingError; calls := [] |}.
Proof.
  split_and!; [by vm_compute| |by vm_compute|].
  - intros [[token Hok]|(e & He & Htag)]; done.
  - intros [[token Hok]|(e & He & Htag)]; [done|].
    simpl in He. by injection He as <-.
Qed.

(** C5, as amended: the returned function is the synchronous one exactly
    when the secret is not a function and worker threads are not asked
    for or not supported; the synchronous one returns the token, or
    throws, directly. The deferred one, called without a callback,
    resolves to the token or rejects with the error that made the call
    fail, as it was thrown. That error is the [TokenError] of the type
    guard for a payload that is neither a string nor an object, and the
    [TokenError] that wraps the cause when the secret callback fails; the
    errors of the runtime and of [createSignature] are not wrapped: the
    [TypeError] of decoding a buffer with an encoding the runtime does
    not know, and whatever [createSignature] threw. Called with a
    callback, that receives the token and the promise resolves to the
    token; on a failure the callback receives the error and the promise
    settles as the callback's call does, it does not reject with the
    error. *)
Theorem C5_sync_or_deferred E options s :
  createSigner E options = Ok s →
  (is_sync s = true
   ↔ typeof (option_of options "secret") ≠ TFunction
     ∧ (truthy (option_of options "useWorkerThreads") = false
        ∨ supportsWorkerThreads E = false))
  ∧ (∀ now payload h hd header pl h',
       encodeHeader E (algorithm (config_of s)) (kid (config_of s))
         (additionalHeader (config_of s)) payload (encoding (config_of s))
       = Ok (hd, header) →
       encodePayload E now payload (encoding (config_of s)) (fixedPayload (config_of s))
         (noTimestamp (config_of s)) (expiresIn (config_of s)) (notBefore (config_of s))
         (mutatePayload (config_of s)) h = (Ok pl, h') →
       signJwt E (config_of s) now payload h
       = (match createSignature E (algorithm (config_of s)) (secret (config_of s)) hd pl
                  VUndefined with
          | Ok signature => Ok (hd +:+ "." +:+ pl +:+ "." +:+ base64UrlEncode signature)
          | Throw e => Throw e
          end, h'))
  ∧ (∀ now payload h token h',
       signJwt_try E (config_of s) now payload h = (Ok token, h') →
       signJwt_async E (config_of s) now payload None h
       = ({| settled := Ok (VStr token); calls := [] |}, h')
       ∧ ∀ f v, f (CbToken token) = Ok v →
                signJwt_async E (config_of s) now payload (Some f) h
                = ({| settled := Ok (VStr token); calls := [CbToken token] |}, h'))
  ∧ (∀ now payload h e h',
       signJwt_try E (config_of s) now payload h = (Throw e, h') →
       signJwt_async E (config_of s) now payload None h
       = ({| settled := Throw e; calls := [] |}, h')
       ∧ ∀ f, signJwt_async E (config_of s) now payload (Some f) h
              = ({| settled := f (CbError e); calls := [CbError e] |}, h'))
  ∧ (∀ now payload h,
       arg_typeof payload ≠ TString → arg_typeof payload ≠ TObject →
       signJwt_try E (config_of s) now payload h = (Throw invalidTypeError, h))
  ∧ (∀ now b h,
       bufferToString E (encoding (config_of s)) b = None →
       signJwt_try E (config_of s) now (Val (VBuf b)) h = (Throw unknownEncodingError, h))
  ∧ (∀ now payload h hd header cause,
       encodeHeader E (algorithm (config_of s)) (kid (config_of s))
         (additionalHeader (config_of s)) payload (encoding (config_of s))
       = Ok (hd, header) →
       typeof (secret (config_of s)) = TFunction →
       getAsyncSecret E (secret (config_of s)) header = Throw cause →
       signJwt_try E (config_of s) now payload h
       = (Throw (TokenError secretFetchingError "Cannot fetch secret." (Some cause)), h))
  ∧ (∀ now payload h hd header key pl h',
       encodeHeader E (algorithm (config_of s)) (kid (config_of s))
         (additionalHeader (config_of s)) payload (encoding (config_of s))
       = Ok (hd, header) →
       currentSecret E (config_of s) header = Ok key →
       encodePayload E now payload (encoding (config_of s)) (fixedPayload (config_of s))
         (noTimestamp (config_of s)) (expiresIn (config_of s)) (notBefore (config_of s))
         (mutatePayload (config_of s)) h = (Ok pl, h') →
       signJwt_try E (config_of s) now payload h
       = (match createSignature E (algorithm (config_of s)) key hd pl
                  (useWorkerThreads (config_of s)) with
          | Ok signature => Ok (hd +:+ "." +:+ pl +:+ "." +:+ base64UrlEncode signature)
          | Throw e => Throw e
          end, h')).
Proof.
  intros Hok. apply createSigner_inv in Hok as (_ & _ & Hsync).
  split_and!.
  - rewrite Hsync, andb_true_iff, orb_true_iff, !negb_true_iff. unfold is_type.
    split.
    + intros [Hf Hw]. split; [|done]. intros Heq. by rewrite Heq in Hf.
    + intros [Hf Hw]. split; [|done].
      by destruct (typeof (option_of options "secret")).
  - intros now payload h hd header pl h' Hhd Hpl.
    unfold signJwt, lift, mbind, M_bind, mret, M_ret. rewrite Hhd, Hpl.
    by destruct (createSignature E _ _ _ _ _).
  - intros now payload h token h' Htry. unfold signJwt_async. rewrite Htry.
    split; [done|]. intros f v Hf. by rewrite Hf.
  - intros now payload h e h' Htry. unfold signJwt_async. by rewrite Htry.
  - intros. by apply signJwt_try_rejects.
  - intros. by apply signJwt_try_undecodable.
  - intros. by eapply signJwt_try_secret_failure.
  - intros now payload h hd header key pl h' Hhd Hkey Hpl.
    unfold signJwt_try, lift, mbind, M_bind, mret, M_ret. rewrite Hhd, Hkey, Hpl.
    by destruct (createSignature E _ _ _ _ _).
Qed.

Lemma C5_sync_or_deferred_witness :
  (is_sync deferred0 = true
   ↔ typeof (option_of (VObj [("secret", VFun "fetchSecret")]) "secret") ≠ TFunction
     ∧ (truthy (option_of (VObj [("secret", VFun "fetchSecret")]) "useWorkerThreads") = false
        ∨ supportsWorkerThreads host0 = false))
  ∧ signJwt_async host0 (config_of deferred0) 1579521212345 (Val (VObj [("a", VNum 1)])) None ∅
    = ({| settled := Ok (VStr "eyJhbGciOiJIUzI1NiIsInR5cCI6IkpXVCJ9.eyJhIjoxLCJpYXQiOjE1Nzk1MjEyMTJ9.c2lnbg");
          calls := [] |},
       snd (signJwt_try host0 (config_of deferred0) 1579521212345
              (Val (VObj [("a", VNum 1)])) ∅))
  ∧ signJwt_async host0 (config_of deferred0) 1579521212345 (Val (VNum 5)) None ∅
    = ({| settled := Throw invalidTypeError; calls := [] |}, ∅)
  ∧ signJwt host0 unsigned0 1579521212345 (Val (VStr "abc")) ∅
    = (Ok "eyJhbGciOiJub25lIn0=.YWJj.", ∅).
Proof.
  destruct (C5_sync_or_deferred host0 (VObj [("secret", VFun "fetchSecret")]) deferred0)
    as (Hsync & _ & Hresolve & Hthrow & _); [by vm_compute|].
  split; [exact Hsync|]. split_and!.
  - apply (Hresolve 1579521212345 (Val (VObj [("a", VNum 1)])) ∅). by vm_compute.
  - apply (Hthrow 1579521212345 (Val (VNum 5)) ∅ invalidTypeError ∅). by vm_compute.
  - destruct (C5_sync_or_deferred host0
                (VObj [("secret", VStr "secretsecretsecret"); ("algorithm", VStr "none")])
                (SyncSigner unsigned0)) as (_ & Hdirect & _); [by vm_compute|].
    apply (Hdirect 1579521212345 (Val (VStr "abc")) ∅ "eyJhbGciOiJub25lIn0="
             [("alg", VStr "none"); ("typ", VUndefined); ("kid", VUndefined)] "YWJj" ∅);
      by vm_compute.
Defined.

(** ** C6: a payload that is a string or a buffer *)

Lemma text_of_decode_buffer E enc payload text :
  text_of E enc payload = Some text → decode_buffer E enc payload = Ok (Val (VStr text)).
Proof. destruct payload as [[]|]; simpl; try done; [by intros [= ->] | by intros ->]. Qed.

Lemma header_of_NoDup alg keyId ah payload : NoDup (header_of alg keyId ah payload).*1.
Proof. apply assign_NoDup. compute_done. Qed.

(** C6, counterexample: with the extra header [{typ: 'JWT'}] the header
    of a string payload carries [typ] all the same; the header segment is
    that of [{alg: 'HS256', typ: 'JWT'}]. *)
Lemma C6_extra_header_typ_on_text_payload :
  fst <$> sign_once host0
            (VObj [("secret", VStr "secretsecretsecret");
                   ("header", VObj [("typ", VStr "JWT")])])
            1579521212345 (Val (VStr "abc")) ∅
  = Some (Ok "eyJhbGciOiJIUzI1NiIsInR5cCI6IkpXVCJ9.YWJj.c2lnbg")
  ∧ encodeHeader host0 (VStr "HS256") VUndefined (VObj [("typ", VStr "JWT")])
      (Val (VStr "abc")) VUndefined
    = Ok ("eyJhbGciOiJIUzI1NiIsInR5cCI6IkpXVCJ9",
          [("alg", VStr "HS256"); ("typ", VStr "JWT"); ("kid", VUndefined)])
  ∧ get_prop (serialized_props [("alg", VStr "HS256"); ("typ", VStr "JWT"); ("kid", VUndefined)])
      "typ"
    = Some (VStr "JWT")
  ∧ base64 <$> stringify (VObj [("alg", VStr "HS256"); ("typ", VStr "JWT")])
    = Some "eyJhbGciOiJIUzI1NiIsInR5cCI6IkpXVCJ9".
Proof. split_and!; by vm_compute. Qed.

(** C6, as amended: for a payload that is a string or a buffer (which
    the runtime can decode), [encodePayload] returns the URL-safe base64
    of the text itself, whatever the claims of the signer, and leaves the
    store alone; and when the extra header has no [typ] of its own, the
    header of such a payload has [typ] undefined, so that the serialized
    header has no [typ], while the header of a payload of type object
    that is not a buffer carries [typ: 'JWT']. *)
Theorem C6_text_payload_encoded_as_is E alg keyId ah payload enc :
  (∀ text, text_of E enc payload = Some text →
     (∀ now fixed nots exp nbf mut h,
        encodePayload E now payload enc fixed nots exp nbf mut h
        = (Ok (base64UrlEncode (base64 text)), h))
     ∧ (get_prop (own_props ah) "typ" = None →
        ∃ hd header,
          encodeHeader E alg keyId ah payload enc = Ok (hd, header)
          ∧ get_prop header "typ" = Some VUndefined
          ∧ get_prop (serialized_props header) "typ" = None
          ∧ base64 <$> stringify (VObj (serialized_props header)) = Some hd))
  ∧ (arg_typeof payload = TObject → is_buffer payload = false →
     get_prop (own_props ah) "typ" = None →
     ∃ hd header,
       encodeHeader E alg keyId ah payload enc = Ok (hd, header)
       ∧ get_prop header "typ" = Some (VStr "JWT")).
Proof.
  split.
  - intros text Htext. apply text_of_decode_buffer in Htext as Hdec. split.
    + intros. by apply encodePayload_text.
    + intros Habs.
      assert (Hty : arg_typeof payload = TString ∨ arg_typeof payload = TObject).
      { destruct payload as [[]|]; simpl in *; auto; discriminate. }
      destruct (encodeHeader_accepts E alg keyId ah payload enc _ Hty Hdec)
        as (body & Hj & Heq).
      eexists _, _. split; [exact Heq|].
      assert (Htyp : get_prop (header_of alg keyId ah (Val (VStr text))) "typ"
                     = Some VUndefined).
      { unfold header_of. by rewrite get_prop_assign_absent. }
      split_and!; [done| |].
      * eapply get_prop_serialized_undefined; [apply header_of_NoDup|done..].
      * by rewrite stringify_serialized_props, Hj.
  - intros Hty Hbuf Habs.
    destruct (encodeHeader_accepts E alg keyId ah payload enc payload (or_intror Hty)
                (decode_buffer_other E enc payload Hbuf)) as (body & Hj & Heq).
    eexists _, _. split; [exact Heq|].
    unfold header_of. rewrite get_prop_assign_absent by done.
    by rewrite Hty.
Qed.

Lemma C6_text_payload_encoded_as_is_witness :
  encodePayload host0 1579521212345 (Val (VBuf "abc")) VUndefined
    (fixedPayload_of (VStr "id") VUndefined (VStr "me") VUndefined VUndefined)
    VUndefined (Some 1000) None VUndefined ∅
  = (Ok (base64UrlEncode (base64 "abc")), ∅)
  ∧ ∃ hd header,
      encodeHeader host0 (VStr "HS256") VUndefined VUndefined (Val (VBuf "abc")) VUndefined
      = Ok (hd, header)
      ∧ get_prop header "typ" = Some VUndefined
      ∧ get_prop (serialized_props header) "typ" = None
      ∧ base64 <$> stringify (VObj (serialized_props header)) = Some hd.
Proof.
  destruct (C6_text_payload_encoded_as_is host0 (VStr "HS256") VUndefined VUndefined
              (Val (VBuf "abc")) VUndefined) as [Htext _].
  destruct (Htext "abc") as [Hpayload Hheader]; [by vm_compute|].
  split; [apply Hpayload | apply Hheader; by vm_compute].
Defined.

(** ** C7: mutating the caller's payload *)

(** C7: for a payload held by the caller at [l], after a call of [sign]
    that returned a token: with [mutatePayload] the object at [l] is the
    merged object, which holds every computed claim and every fixed claim
    a computed one does not override, and no other object changed;
    without it no object the caller held changed, the one at [l]
    included. *)
Theorem C7_mutate_or_copy E c now l o h token h' :
  h !! l = Some o →
  signs E c now (Ref l) h token h' →
  let additional := additionalPayload_of (iat_ms E (prop o "iat") now) (noTimestamp c)
                      (expiresIn c) (notBefore c) in
  let merged := merged_payload E now o (fixedPayload c) (noTimestamp c) (expiresIn c)
                  (notBefore c) in
  (truthy (mutatePayload c) = true →
     h' !! l = Some merged
     ∧ (∀ k v, get_prop additional k = Some v → get_prop merged k = Some v)
     ∧ (NoDup (fixedPayload c).*1 →
        ∀ k v, get_prop (fixedPayload c) k = Some v → get_prop additional k = None →
               get_prop merged k = Some v)
     ∧ (∀ l' o', l' ≠ l → h !! l' = Some o' → h' !! l' = Some o'))
  ∧ (truthy (mutatePayload c) = false →
     ∀ l' o', h !! l' = Some o' → h' !! l' = Some o').
Proof.
  intros Hl Hsigns additional merged.
  destruct (signs_inv E _ _ _ _ _ _ Hsigns) as (hd & header & key & w & pl & sg & _ & Hpl & _).
  destruct (encodePayload_ref E now l (encoding c) (fixedPayload c) (noTimestamp c)
              (expiresIn c) (notBefore c) (mutatePayload c) h) as (body & _ & Heq).
  rewrite Heq, Hl in Hpl. simpl in Hpl. fold merged in Hpl.
  split.
  - intros Hmut. rewrite Hmut in Hpl. injection Hpl as _ <-.
    split_and!.
    + apply lookup_insert_eq.
    + intros k v Hk. subst merged. unfold merged_payload.
      rewrite get_prop_assign by apply additionalPayload_NoDup.
      fold additional. by rewrite Hk.
    + intros Hnd k v Hk Hno. subst merged.
      rewrite merged_payload_precedence by done. fold additional. by rewrite Hno, Hk.
    + intros l' o' Hne Hl'. by rewrite lookup_insert_ne.
  - intros Hmut. rewrite Hmut in Hpl. injection Hpl as _ <-.
    intros l' o' Hl'. rewrite lookup_insert_ne; [done|].
    intros <-. apply (is_fresh (dom h)). apply elem_of_dom. eauto.
Qed.

Lemma C7_mutate_or_copy_witness :
  snd (signJwt host0 (mutating0 true) 1579521212345 (Ref 1%positive) caller_heap) !! 1%positive
  = Some [("a", VNum 1); ("jti", VUndefined); ("aud", VUndefined); ("iss", VStr "me");
          ("sub", VUndefined); ("nonce", VUndefined); ("iat", VNum 1579521212);
          ("exp", VNum 1579521272)]
  ∧ snd (signJwt host0 (mutating0 false) 1579521212345 (Ref 1%positive) caller_heap) !! 1%positive
    = Some [("a", VNum 1)].
Proof.
  split.
  - destruct (C7_mutate_or_copy host0 (mutating0 true) 1579521212345 1%positive
                [("a", VNum 1)] caller_heap
                "eyJhbGciOiJIUzI1NiIsInR5cCI6IkpXVCJ9.eyJhIjoxLCJpc3MiOiJtZSIsImlhdCI6MTU3OTUyMTIxMiwiZXhwIjoxNTc5NTIxMjcyfQ.c2lnbg"
                (snd (signJwt host0 (mutating0 true) 1579521212345 (Ref 1%positive)
                        caller_heap)))
      as [Hmut _]; [by vm_compute | left; by vm_compute |].
    destruct Hmut as [Hl _]; [by vm_compute|]. exact Hl.
  - destruct (C7_mutate_or_copy host0 (mutating0 false) 1579521212345 1%positive
                [("a", VNum 1)] caller_heap
                "eyJhbGciOiJIUzI1NiIsInR5cCI6IkpXVCJ9.eyJhIjoxLCJpc3MiOiJtZSIsImlhdCI6MTU3OTUyMTIxMiwiZXhwIjoxNTc5NTIxMjcyfQ.c2lnbg"
                (snd (signJwt host0 (mutating0 false) 1579521212345 (Ref 1%positive)
                        caller_heap)))
      as [_ Hcopy]; [by vm_compute | left; by vm_compute |].
    apply Hcopy; by vm_compute.
Defined.

(** ** C8: the algorithm option *)



(** The supported set of the evaluation host: the twelve identifiers of
    the tables and [none]. *)
Example host0_supported :
  supportedAlgorithms host0
  = "RS256, RS384, RS512, ES256, ES384, ES512, PS256, PS384, PS512, HS256, HS384, HS512, none".
Proof. reflexivity. Qed.

(** An [algorithm] property that is there with the value [undefined] is
    not an absent one: the spread of line 98 writes it over the default,
    and the check rejects it. *)
Example explicit_undefined_algorithm_rejected :
  createSigner host0 (VObj [("secret", VStr "secretsecretsecret"); ("algorithm", VUndefined)])
  = Throw (algorithmError host0).
Proof. reflexivity. Qed.

(** ** C9: the extra header *)

(** C9: for a payload that passes the type guard and decodes to [p],
    [encodeHeader] returns the header [{alg, typ, kid, ...extra}], in
    which every property of the extra header, [alg], [typ] and [kid]
    included, has the value the extra header gives it, and the header
    segment is the base64 of its JSON. With that segment [hd] and the
    payload segment [pl], [sign] returns the token whose signature is the
    one [createSignature] makes for the algorithm option of the signer,
    whatever [alg] the header names: the synchronous function with the
    secret option, the deferred one with the secret it fetched. Every
    token [sign] returns has this form. *)
Theorem C9_extra_header_overrides E c now payload h p :
  NoDup (own_props (additionalHeader c)).*1 →
  arg_typeof payload = TString ∨ arg_typeof payload = TObject →
  decode_buffer E (encoding c) payload = Ok p →
  let header := header_of (algorithm c) (kid c) (additionalHeader c) p in
  (∀ k v, get_prop (own_props (additionalHeader c)) k = Some v →
          get_prop header k = Some v)
  ∧ (get_prop (own_props (additionalHeader c)) "alg" = None →
     get_prop header "alg" = Some (algorithm c))
  ∧ ∃ hd,
      base64 <$> stringify (VObj header) = Some hd
      ∧ encodeHeader E (algorithm c) (kid c) (additionalHeader c) payload (encoding c)
        = Ok (hd, header)
      ∧ (∀ pl h' signature,
           encodePayload E now payload (encoding c) (fixedPayload c) (noTimestamp c)
             (expiresIn c) (notBefore c) (mutatePayload c) h = (Ok pl, h') →
           (createSignature E (algorithm c) (secret c) hd pl VUndefined = Ok signature →
            signJwt E c now payload h
            = (Ok (hd +:+ "." +:+ pl +:+ "." +:+ base64UrlEncode signature), h'))
           ∧ (∀ key,
                currentSecret E c header = Ok key →
                createSignature E (algorithm c) key hd pl (useWorkerThreads c)
                = Ok signature →
                signJwt_try E c now payload h
                = (Ok (hd +:+ "." +:+ pl +:+ "." +:+ base64UrlEncode signature), h')))
      ∧ (∀ token h',
           signs E c now payload h token h' →
           ∃ pl key w signature,
             token = hd +:+ "." +:+ pl +:+ "." +:+ base64UrlEncode signature
             ∧ createSignature E (algorithm c) key hd pl w = Ok signature).
Proof.
  intros Hnd Hty Hp header.
  destruct (encodeHeader_accepts E (algorithm c) (kid c) (additionalHeader c) payload
              (encoding c) p Hty Hp) as (body & Hj & Hhd).
  fold header in Hj, Hhd.
  split_and!.
  - intros k v Hk. subst header. unfold header_of. rewrite get_prop_assign by done.
    by rewrite Hk.
  - intros Habs. subst header. unfold header_of. by rewrite get_prop_assign_absent.
  - exists (base64 (String "{" body)). split_and!.
    + by rewrite Hj.
    + done.
    + intros pl h' signature Hpl. split.
      * intros Hsig. unfold signJwt, lift, mbind, M_bind, mret, M_ret.
        by rewrite Hhd, Hpl, Hsig.
      * intros key Hkey Hsig. unfold signJwt_try, lift, mbind, M_bind, mret, M_ret.
        by rewrite Hhd, Hkey, Hpl, Hsig.
    + intros token h' Hsigns.
      destruct (signs_inv E _ _ _ _ _ _ Hsigns)
        as (hd & header' & key & w & pl & signature & Hhd' & _ & Hsig & ->).
      rewrite Hhd in Hhd'. injection Hhd' as <- <-.
      by exists pl, key, w, signature.
Qed.

Lemma C9_extra_header_overrides_witness :
  get_prop (header_of (algorithm overriding0) (kid overriding0) (additionalHeader overriding0)
              (Val (VObj [("a", VNum 1)]))) "alg"
  = Some (VStr "none")
  ∧ algorithm overriding0 = VStr "HS256"
  ∧ signJwt host0 overriding0 1579521212345 (Val (VObj [("a", VNum 1)])) ∅
    = (Ok "eyJhbGciOiJub25lIiwidHlwIjoiWCIsImtpZCI6ImsyIn0=.eyJhIjoxLCJpYXQiOjE1Nzk1MjEyMTJ9.c2lnbg",
       snd (encodePayload host0 1579521212345 (Val (VObj [("a", VNum 1)])) VUndefined
              no_fixed_claims VUndefined None None VUndefined ∅)).
Proof.
  destruct (C9_extra_header_overrides host0 overriding0 1579521212345
              (Val (VObj [("a", VNum 1)])) ∅ (Val (VObj [("a", VNum 1)])))
    as (Hprops & _ & hd & Hj & _ & Hsign & _); [compute_done | by right | reflexivity |].
  vm_compute in Hj. injection Hj as <-.
  split; [by apply Hprops|]. split; [reflexivity|].
  destruct (Hsign "eyJhIjoxLCJpYXQiOjE1Nzk1MjEyMTJ9"
              (snd (encodePayload host0 1579521212345 (Val (VObj [("a", VNum 1)])) VUndefined
                      no_fixed_claims VUndefined None None VUndefined ∅))
              "c2lnbg==") as [Hsync _]; [by vm_compute|].
  apply Hsync. reflexivity.
Defined.

(** An extra header that is an array: its element is a property of the
    header under the index 0, and the runtime lists an array index before
    the other names, so the header segment is the base64 of
    [{"0":"x","alg":"HS256","typ":"JWT"}]. *)
Example array_extra_header_listed_first :
  encodeHeader host0 (VStr "HS256") VUndefined (VArr [VStr "x"]) (Val (VObj [])) VUndefined
  = Ok ("eyIwIjoieCIsImFsZyI6IkhTMjU2IiwidHlwIjoiSldUIn0=",
        [("alg", VStr "HS256"); ("typ", VStr "JWT"); ("kid", VUndefined); ("0", VStr "x")])
  ∧ key_order [("alg", VStr "HS256"); ("typ", VStr "JWT"); ("kid", VUndefined); ("0", VStr "x")]
    = [("0", VStr "x"); ("alg", VStr "HS256"); ("typ", VStr "JWT"); ("kid", VUndefined)].
Proof. split; by vm_compute. Qed.

(** The token of that signer names [none] in its header and carries the
    signature made for HS256. *)
Example extra_header_alg_differs :
  fst (signJwt host0 overriding0 1579521212345 (Val (VObj [("a", VNum 1)])) ∅)
  = Ok "eyJhbGciOiJub25lIiwidHlwIjoiWCIsImtpZCI6ImsyIn0=.eyJhIjoxLCJpYXQiOjE1Nzk1MjEyMTJ9.c2lnbg"
  ∧ base64 <$> stringify (VObj [("alg", VStr "none"); ("typ", VStr "X"); ("kid", VStr "k2")])
    = Some "eyJhbGciOiJub25lIiwidHlwIjoiWCIsImtpZCI6ImsyIn0="
  ∧ createSignature host0 (algorithm overriding0) (secret overriding0)
      "eyJhbGciOiJub25lIiwidHlwIjoiWCIsImtpZCI6ImsyIn0=" "eyJhIjoxLCJpYXQiOjE1Nzk1MjEyMTJ9"
      VUndefined
    = Ok "c2lnbg=="
  ∧ createSignature host0 (VStr "none") (secret overriding0)
      "eyJhbGciOiJub25lIiwidHlwIjoiWCIsImtpZCI6ImsyIn0=" "eyJhIjoxLCJpYXQiOjE1Nzk1MjEyMTJ9"
      VUndefined
    = Ok str_nil.
Proof. split_and!; by vm_compute. Qed.

(** ** C10: the type guard and [null] *)

(** C10: [encodeHeader] throws the InvalidType error exactly when
    [typeof payload] is neither [string] nor [object]; the only other
    error it throws is the one of decoding a buffer. [null] has the type
    [object]: it passes the guard, and reading [payload.iat] in
    [encodePayload] throws a [TypeError], which is not a [TokenError].
    The synchronous [sign(null)] throws it; the deferred one rejects
    with it once its secret is at hand. *)
Theorem C10_type_guard_and_null E alg keyId ah payload enc :
  (encodeHeader E alg keyId ah payload enc = Throw invalidTypeError
   ↔ arg_typeof payload ≠ TString ∧ arg_typeof payload ≠ TObject)
  ∧ (∀ e, encodeHeader E alg keyId ah payload enc = Throw e →
          e = invalidTypeError
          ∨ (e = unknownEncodingError
             ∧ ∃ b, payload = Val (VBuf b) ∧ bufferToString E enc b = None))
  ∧ arg_typeof (Val VNull) = TObject
  ∧ (∃ hd, encodeHeader E alg keyId ah (Val VNull) enc
           = Ok (hd, header_of alg keyId ah (Val VNull)))
  ∧ (∀ now fixed nots exp nbf mut h,
       encodePayload E now (Val VNull) enc fixed nots exp nbf mut h
       = (Throw (TypeError "payload.iat"), h))
  ∧ is_TokenError (TypeError "payload.iat") = false
  ∧ (∀ c now h, signJwt E c now (Val VNull) h = (Throw (TypeError "payload.iat"), h))
  ∧ (∀ c now h key,
       currentSecret E c (header_of (algorithm c) (kid c) (additionalHeader c) (Val VNull))
       = Ok key →
       signJwt_async E c now (Val VNull) None h
       = ({| settled := Throw (TypeError "payload.iat"); calls := [] |}, h)).
Proof.
  assert (Hnull : ∀ a k x n, ∃ hd, encodeHeader E a k x (Val VNull) n
                                   = Ok (hd, header_of a k x (Val VNull))).
  { intros a k x n.
    destruct (encodeHeader_accepts E a k x (Val VNull) n (Val VNull)) as (body & _ & Heq);
      [by right|done|].
    eauto. }
  split_and!.
  - split.
    + intros Hthrow. by apply encodeHeader_throw_inv in Hthrow as [(_ & ? & ?)|([=] & _)].
    + intros [Hs Ho]. by apply encodeHeader_rejects.
  - intros e Hthrow.
    apply encodeHeader_throw_inv in Hthrow as [(-> & _)|(-> & Hb)]; auto.
  - done.
  - apply Hnull.
  - intros. apply encodePayload_null.
  - done.
  - intros c now h. unfold signJwt, lift, mbind, M_bind.
    destruct (Hnull (algorithm c) (kid c) (additionalHeader c) (encoding c)) as [hd ->].
    by rewrite encodePayload_null.
  - intros c now h key Hkey. unfold signJwt_async, signJwt_try, lift, mbind, M_bind.
    destruct (Hnull (algorithm c) (kid c) (additionalHeader c) (encoding c)) as [hd ->].
    by rewrite Hkey, encodePayload_null.
Qed.

Lemma C10_type_guard_and_null_witness :
  signJwt_async host0 (config_of deferred0) 1579521212345 (Val VNull) None ∅
  = ({| settled := Throw (TypeError "payload.iat"); calls := [] |}, ∅).
Proof.
  destruct (C10_type_guard_and_null host0 VUndefined VUndefined VUndefined (Val VNull)
              VUndefined) as (_ & _ & _ & _ & _ & _ & _ & Hasync).
  apply (Hasync (config_of deferred0) 1579521212345 ∅ (VStr "secret")). by vm_compute.
Defined.

(** * Further properties of encodePayload *)

(** X1: the order of the merge. For a payload object held by the caller,
    the encoded payload is the JSON of the merged object, in which a
    name has the value of the computed claims if they have it, else the
    value of the fixed payload if that has the name, else the value of
    the caller's payload. *)
Theorem encodePayload_merge_order E now l o enc fixed nots exp nbf mut h :
  h !! l = Some o → NoDup fixed.*1 →
  let additional := additionalPayload_of (iat_ms E (prop o "iat") now) nots exp nbf in
  let merged := merged_payload E now o fixed nots exp nbf in
  (∃ json, stringify (VObj merged) = Some json
           ∧ fst (encodePayload E now (Ref l) enc fixed nots exp nbf mut h)
             = Ok (base64UrlEncode (base64 json)))
  ∧ ∀ k, get_prop merged k
         = match get_prop additional k with
           | Some v => Some v
           | None => match get_prop fixed k with
                     | Some v => Some v
                     | None => get_prop o k
                     end
           end.
Proof.
  intros Hl Hnd additional merged. split.
  - destruct (encodePayload_ref E now l enc fixed nots exp nbf mut h) as (body & Hj & Heq).
    rewrite Hl in Hj, Heq. simpl in Hj, Heq. exists (String "{" body).
    split; [exact Hj|]. by rewrite Heq.
  - intros k. by apply merged_payload_precedence.
Qed.

Lemma encodePayload_merge_order_witness :
  (∃ json,
     stringify (VObj (merged_payload host0 1579521212345 [("a", VNum 1); ("iss", VStr "you")]
                        (fixedPayload (mutating0 false)) VUndefined (Some 60000) None))
     = Some json
     ∧ fst (encodePayload host0 1579521212345 (Ref 1%positive) VUndefined
              (fixedPayload (mutating0 false)) VUndefined (Some 60000) None VUndefined
              {[ 1%positive := [("a", VNum 1); ("iss", VStr "you")] ]})
       = Ok (base64UrlEncode (base64 json)))
  ∧ get_prop (merged_payload host0 1579521212345 [("a", VNum 1); ("iss", VStr "you")]
                (fixedPayload (mutating0 false)) VUndefined (Some 60000) None) "iss"
    = Some (VStr "me").
Proof.
  destruct (encodePayload_merge_order host0 1579521212345 1%positive
              [("a", VNum 1); ("iss", VStr "you")] VUndefined
              (fixedPayload (mutating0 false)) VUndefined (Some 60000) None VUndefined
              {[ 1%positive := [("a", VNum 1); ("iss", VStr "you")] ]})
    as [Hjson Horder]; [by vm_compute | compute_done |].
  split; [exact Hjson|]. by rewrite Horder.
Defined.

(** X2: the time claims of a payload whose [iat] is an integer other
    than 0, where the arithmetic of lines 34-46 is exact: the baseline
    [iat * 1000], the span and their sum are below 2^53 in absolute
    value. The baseline is that integer, in seconds; the emitted [iat] is
    the integer itself, [exp] and [nbf] are the floors, in seconds, of the
    baseline plus the span in milliseconds. *)
Theorem time_claims_of_nonzero_iat E now o fixed nots exp nbf n :
  NoDup fixed.*1 → get_prop o "iat" = Some (VNum n) → n ≠ 0 → exact (n * 1000) →
  let merged := merged_payload E now o fixed nots exp nbf in
  (truthy nots = false → get_prop merged "iat" = Some (VNum n))
  ∧ (∀ e, exp = Some e → exact e → exact (n * 1000 + e) →
          get_prop merged "exp" = Some (VNum ((n * 1000 + e) / 1000)))
  ∧ (∀ b, nbf = Some b → exact b → exact (n * 1000 + b) →
          get_prop merged "nbf" = Some (VNum ((n * 1000 + b) / 1000))).
Proof.
  intros Hnd Hiat Hn _ merged. subst merged.
  assert (Hms : iat_ms E (prop o "iat") now = n * 1000).
  { unfold prop. rewrite Hiat. by apply iat_ms_number. }
  split_and!.
  - intros Hnots. rewrite merged_payload_precedence, additionalPayload_iat, Hnots, Hms by done.
    by rewrite Z.div_mul.
  - intros e -> _ _. by rewrite merged_payload_precedence, additionalPayload_exp, Hms.
  - intros b -> _ _. by rewrite merged_payload_precedence, additionalPayload_nbf, Hms.
Qed.

Lemma time_claims_of_nonzero_iat_witness :
  get_prop (merged_payload host0 1579521212345 [("iat", VNum 1500000000)] no_fixed_claims
              VUndefined (Some 1500) (Some 500)) "iat" = Some (VNum 1500000000)
  ∧ get_prop (merged_payload host0 1579521212345 [("iat", VNum 1500000000)] no_fixed_claims
                VUndefined (Some 1500) (Some 500)) "exp" = Some (VNum 1500000001)
  ∧ get_prop (merged_payload host0 1579521212345 [("iat", VNum 1500000000)] no_fixed_claims
                VUndefined (Some 1500) (Some 500)) "nbf" = Some (VNum 1500000000).
Proof.
  destruct (time_claims_of_nonzero_iat host0 1579521212345 [("iat", VNum 1500000000)]
              no_fixed_claims VUndefined (Some 1500) (Some 500) 1500000000)
    as (Hiat & Hexp & Hnbf); [compute_done | reflexivity | lia | by vm_compute |].
  split_and!; [by apply Hiat | by rewrite (Hexp 1500) | by rewrite (Hnbf 500)].
Defined.



(** X19: the time claims in the arithmetic of the runtime. Where the
    numbers are exact (the clock, the baseline [iat * 1000], the spans
    and their sums with it are below 2^53 in absolute value), lines 34-47
    computed in doubles give the baseline and the claims that the
    arithmetic of integers gives. *)
Theorem time_claims_exact_in_doubles E iatProp now nots exp nbf :
  exact now →
  (∀ n, toNumber E iatProp = Some n → exact (n * 1000)) →
  (∀ e, exp = Some e → exact e ∧ exact (iat_ms E iatProp now + e)) →
  (∀ b, nbf = Some b → exact b ∧ exact (iat_ms E iatProp now + b)) →
  iat_ms_double E iatProp now = iat_ms E iatProp now
  ∧ additionalPayload_double (iat_ms_double E iatProp now) nots exp nbf
    = additionalPayload_of (iat_ms E iatProp now) nots exp nbf.
Proof.
  intros Hnow Hn Hexp Hnbf.
  assert (Hms : iat_ms_double E iatProp now = iat_ms E iatProp now).
  { unfold iat_ms_double, iat_ms. destruct (toNumber E iatProp) as [n|]; [|done].
    by rewrite double_mul_exact by by apply Hn. }
  split; [done|]. rewrite Hms.
  assert (Hiat : exact (iat_ms E iatProp now)).
  { unfold iat_ms. destruct (toNumber E iatProp) as [n|] eqn:Hnum; [|done].
    destruct (n * 1000 =? 0); [done|]. by apply Hn. }
  assert (Hsum : ∀ x, exact (iat_ms E iatProp now + x) →
            double_floor_div (double_add (iat_ms E iatProp now) x) 1000
            = (iat_ms E iatProp now + x) / 1000).
  { intros x Hx. rewrite double_add_exact by done. by apply double_floor_div_exact. }
  unfold additionalPayload_double, additionalPayload_of.
  rewrite (double_floor_div_exact _ Hiat).
  destruct exp as [e|], nbf as [b|]; try destruct (Hexp e eq_refl) as [_ He];
    try destruct (Hnbf b eq_refl) as [_ Hb]; by rewrite ?(Hsum e He), ?(Hsum b Hb).
Qed.

Lemma time_claims_exact_in_doubles_witness :
  iat_ms_double host0 (VNum 1500000000) 1579521212345 = 1500000000000
  ∧ additionalPayload_double (iat_ms_double host0 (VNum 1500000000) 1579521212345)
      VUndefined (Some 1500) (Some 500)
    = [("iat", VNum 1500000000); ("exp", VNum 1500000001); ("nbf", VNum 1500000000)].
Proof.
  apply (time_claims_exact_in_doubles host0 (VNum 1500000000) 1579521212345 VUndefined
           (Some 1500) (Some 500));
    [by vm_compute | by intros n [= <-]; vm_compute
    | intros e [= <-]; split; by vm_compute | intros b [= <-]; split; by vm_compute].
Defined.

(** Beyond 2^53 the two differ. For the [iat] 2^44 and a span of 999 ms
    the sum 17592186044416999 is not a double and is rounded to
    17592186044417000, so the runtime's [exp] is one second later than
    the integer quotient; the product of 909729024368680 by 1000 is
    rounded down, and the runtime's [iat] is one second earlier. *)
Example time_claims_beyond_2_53 :
  additionalPayload_double (iat_ms_double host0 (VNum (2 ^ 44)) 0) VUndefined (Some 999) None
  = [("iat", VNum 17592186044416); ("exp", VNum 17592186044417)]
  ∧ additionalPayload_of (iat_ms host0 (VNum (2 ^ 44)) 0) VUndefined (Some 999) None
    = [("iat", VNum 17592186044416); ("exp", VNum 17592186044416)]
  ∧ additionalPayload_double (iat_ms_double host0 (VNum 909729024368680) 0) VUndefined None None
    = [("iat", VNum 909729024368679)].
Proof. split_and!; by vm_compute. Qed.

(** * Further properties of createSigner and of the signers *)

Section CreatedSignerFacts.

Variable E : host.

(** A guard of the form [v && typeof v !== t] that did not fire. *)
Lemma guard_falsy_or v t :
  truthy v && negb (is_type v t) = false → falsy_or t v.
Proof.
  unfold falsy_or, is_type. destruct (truthy v); [|by left]. simpl.
  intros Ht%negb_false_iff. right.
  by destruct (typeof v), t.
Qed.

(** The guard of lines 128 and 132 that did not fire. *)
Lemma guard_span v :
  truthy v && (negb (is_type v TNumber) || negative v) = false →
  (truthy v = false ∧ span v = None) ∨ (∃ n, v = VNum n ∧ 0 < n ∧ span v = Some n).
Proof.
  destruct v as [| |b|n| |t|l|o|b|f]; simpl; try (by left); try (by destruct (truthy _)).
  - destruct b; [done|by left].
  - unfold span. simpl. destruct (n =? 0) eqn:Hn; simpl; [by left|].
    intros Hneg%Z.ltb_ge. apply Z.eqb_neq in Hn. right. exists n. split_and!; [done|lia|done].
  - destruct (negb (String.eqb t str_nil)) eqn:Ht; [done|]. intros _. left. split; [done|].
    done.
Qed.

(** What the twelve guards of lines 101-162 leave of the options of a
    signer that was returned. *)
Lemma createSigner_guards options s :
  createSigner E options = Ok s →
  truthy (option_of options "secret") = true
  ∧ (typeof (option_of options "secret") = TString
     ∨ typeof (option_of options "secret") = TObject
     ∨ typeof (option_of options "secret") = TFunction)
  ∧ falsy_or TString (option_of options "encoding")
  ∧ ((truthy (option_of options "expiresIn") = false
      ∧ span (option_of options "expiresIn") = None)
     ∨ ∃ n, option_of options "expiresIn" = VNum n ∧ 0 < n
            ∧ span (option_of options "expiresIn") = Some n)
  ∧ ((truthy (option_of options "notBefore") = false
      ∧ span (option_of options "notBefore") = None)
     ∨ ∃ n, option_of options "notBefore" = VNum n ∧ 0 < n
            ∧ span (option_of options "notBefore") = Some n)
  ∧ falsy_or TString (option_of options "jti")
  ∧ (falsy_or TString (option_of options "aud") ∨ isArray (option_of options "aud") = true)
  ∧ falsy_or TString (option_of options "iss")
  ∧ falsy_or TString (option_of options "sub")
  ∧ falsy_or TString (option_of options "nonce")
  ∧ falsy_or TString (option_of options "kid")
  ∧ falsy_or TObject (option_of options "header").
Proof.
  unfold createSigner, reject_if. cbv zeta.
  destruct (negb (is_string _ "none") && _ && _ && _); [done|].
  destruct (negb (truthy (option_of options "secret")) || _) eqn:Hsecret; [done|].
  destruct (truthy (option_of options "encoding") && _) eqn:Henc; [done|].
  destruct (truthy (option_of options "expiresIn") && _) eqn:Hexp; [done|].
  destruct (truthy (option_of options "notBefore") && _) eqn:Hnbf; [done|].
  destruct (truthy (option_of options "jti") && _) eqn:Hjti; [done|].
  destruct (truthy (option_of options "aud") && _ && _) eqn:Haud; [done|].
  destruct (truthy (option_of options "iss") && _) eqn:Hiss; [done|].
  destruct (truthy (option_of options "sub") && _) eqn:Hsub; [done|].
  destruct (truthy (option_of options "nonce") && _) eqn:Hnonce; [done|].
  destruct (truthy (option_of options "kid") && _) eqn:Hkid; [done|].
  destruct (truthy (option_of options "header") && _) eqn:Hhdr; [done|].
  intros _.
  apply orb_false_elim in Hsecret as [Htruthy Htype].
  apply negb_false_iff in Htruthy.
  split_and!; try (by apply guard_falsy_or); try (by apply guard_span); [done| |].
  - unfold is_type in Htype. destruct (typeof (option_of options "secret")); auto; done.
  - destruct (isArray (option_of options "aud")) eqn:Harr; [by right|]. left.
    apply guard_falsy_or. by rewrite andb_true_r in Haud.
Qed.

Lemma fixedPayload_of_keys jti aud iss sub nonce :
  (fixedPayload_of jti aud iss sub nonce).*1 = fixed_names.
Proof. reflexivity. Qed.

Lemma fixedPayload_of_props jti aud iss sub nonce :
  get_prop (fixedPayload_of jti aud iss sub nonce) "jti" = Some jti
  ∧ get_prop (fixedPayload_of jti aud iss sub nonce) "aud" = Some aud
  ∧ get_prop (fixedPayload_of jti aud iss sub nonce) "iss" = Some iss
  ∧ get_prop (fixedPayload_of jti aud iss sub nonce) "sub" = Some sub
  ∧ get_prop (fixedPayload_of jti aud iss sub nonce) "nonce" = Some nonce.
Proof. by split_and!. Qed.

Lemma fixed_names_NoDup : NoDup fixed_names.
Proof. compute_done. Qed.

Lemma created_fixedPayload options s :
  createSigner E options = Ok s →
  fixedPayload (config_of s)
  = fixedPayload_of (option_of options "jti") (option_of options "aud")
      (option_of options "iss") (option_of options "sub") (option_of options "nonce").
Proof. intros Hok. apply createSigner_inv in Hok as (_ & -> & _). done. Qed.

Lemma created_fixedPayload_NoDup options s :
  createSigner E options = Ok s → NoDup (fixedPayload (config_of s)).*1.
Proof.
  intros Hok. rewrite (created_fixedPayload _ _ Hok), fixedPayload_of_keys.
  apply fixed_names_NoDup.
Qed.

(** The precedence of the merge, for the signer's own payload. *)
Lemma signed_payload_precedence options s now o k :
  createSigner E options = Ok s →
  get_prop (signed_payload E (config_of s) now o) k
  = match get_prop (additionalPayload_of (iat_ms E (prop o "iat") now)
                      (noTimestamp (config_of s)) (expiresIn (config_of s))
                      (notBefore (config_of s))) k with
    | Some v => Some v
    | None => match get_prop (fixedPayload (config_of s)) k with
              | Some v => Some v
              | None => get_prop o k
              end
    end.
Proof.
  intros Hok. unfold signed_payload.
  apply merged_payload_precedence. by eapply created_fixedPayload_NoDup.
Qed.


(** [sign] on a payload object of the store: the header is always
    accepted. *)
Lemma encodeHeader_ref alg keyId ah l enc :
  ∃ hd, encodeHeader E alg keyId ah (Ref l) enc = Ok (hd, header_of alg keyId ah (Ref l)).
Proof.
  destruct (encodeHeader_accepts E alg keyId ah (Ref l) enc (Ref l)) as (body & _ & Heq);
    [by right|done|].
  eauto.
Qed.

(** What the synchronous [sign] returns, step by step. *)
Lemma signJwt_result c now payload h :
  fst (signJwt E c now payload h)
  = match encodeHeader E (algorithm c) (kid c) (additionalHeader c) payload (encoding c) with
    | Throw e => Throw e
    | Ok (hd, _) =>
        match fst (encodePayload E now payload (encoding c) (fixedPayload c) (noTimestamp c)
                     (expiresIn c) (notBefore c) (mutatePayload c) h) with
        | Throw e => Throw e
        | Ok pl =>
            match createSignature E (algorithm c) (secret c) hd pl VUndefined with
            | Throw e => Throw e
            | Ok sg => Ok (hd +:+ "." +:+ pl +:+ "." +:+ base64UrlEncode sg)
            end
        end
    end.
Proof.
  unfold signJwt, lift, mbind, M_bind, mret, M_ret.
  destruct (encodeHeader E _ _ _ _ _) as [[hd header]|e]; [|done].
  destruct (encodePayload E _ _ _ _ _ _ _ _ h) as [[pl|e] h1]; [|done]. simpl.
  by destruct (createSignature E _ _ _ _ _).
Qed.

(** The store after the synchronous [sign] is the one [encodePayload]
    left, when the header was accepted. *)
Lemma signJwt_store c now payload h hd header :
  encodeHeader E (algorithm c) (kid c) (additionalHeader c) payload (encoding c)
  = Ok (hd, header) →
  snd (signJwt E c now payload h)
  = snd (encodePayload E now payload (encoding c) (fixedPayload c) (noTimestamp c)
           (expiresIn c) (notBefore c) (mutatePayload c) h).
Proof.
  intros Hhd. unfold signJwt, lift, mbind, M_bind, mret, M_ret. rewrite Hhd.
  destruct (encodePayload E _ _ _ _ _ _ _ _ h) as [[pl|e] h1]; [|done]. simpl.
  by destruct (createSignature E _ _ _ _ _).
Qed.

Lemma elem_of_existsb_eqb x (l : list string) :
  existsb (String.eqb x) l = true ↔ x ∈ l.
Proof.
  rewrite existsb_exists, list_elem_of_In. split.
  - intros (y & Hy & Heq). apply String.eqb_eq in Heq. by subst.
  - intros Hx. exists x. split; [done|]. apply String.eqb_refl.
Qed.

(** [new Set] keeps every element, once. *)
Lemma unique_spec (l : list string) :
  NoDup (unique l) ∧ ∀ x, x ∈ unique l ↔ x ∈ l.
Proof.
  unfold unique.
  assert (Hgen : ∀ acc, NoDup acc →
            NoDup (fold_left (λ acc x, if existsb (String.eqb x) acc then acc else acc ++ [x])
                     l acc)
            ∧ ∀ x, x ∈ fold_left (λ acc x, if existsb (String.eqb x) acc then acc
                                           else acc ++ [x]) l acc
                   ↔ x ∈ acc ∨ x ∈ l).
  { induction l as [|y l IH]; intros acc Hnd; simpl.
    - split; [done|]. intros x. rewrite elem_of_nil. tauto.
    - destruct (existsb (String.eqb y) acc) eqn:Hy.
      + apply elem_of_existsb_eqb in Hy. destruct (IH acc Hnd) as [Hnd' Hin].
        split; [done|]. intros x. rewrite Hin, elem_of_cons.
        split; [tauto|]. intros [?|[->|?]]; auto.
      + assert (Hny : y ∉ acc).
        { intros Hin. apply elem_of_existsb_eqb in Hin. congruence. }
        destruct (IH (acc ++ [y])) as [Hnd' Hin].
        { apply NoDup_app. split_and!; [done| |apply NoDup_singleton].
          intros x Hx Hx'. apply list_elem_of_singleton in Hx' as ->. done. }
        split; [done|]. intros x.
        rewrite Hin, elem_of_app, list_elem_of_singleton, elem_of_cons. tauto. }
  destruct (Hgen [] (NoDup_nil_2)) as [Hnd Hin]. split; [done|].
  intros x. rewrite Hin, elem_of_nil. tauto.
Qed.

Lemma includes_spec (l : list string) (v : value) :
  includes l v = true ↔ ∃ a, v = VStr a ∧ a ∈ l.
Proof.
  unfold includes. rewrite existsb_exists. split.
  - intros (a & Ha & Heq). exists a. apply list_elem_of_In in Ha. split; [|done].
    destruct v; simpl in Heq; try done. apply String.eqb_eq in Heq. by subst.
  - intros (a & -> & Ha). exists a. apply list_elem_of_In in Ha. split; [done|].
    simpl. apply String.eqb_refl.
Qed.

(** The spans a created signer holds are positive. *)
Lemma created_spans_positive options s :
  createSigner E options = Ok s →
  (∀ e, expiresIn (config_of s) = Some e → 0 < e)
  ∧ (∀ b, notBefore (config_of s) = Some b → 0 < b).
Proof.
  intros Hok.
  destruct (createSigner_guards _ _ Hok) as (_ & _ & _ & Hexp & Hnbf & _).
  apply createSigner_inv in Hok as (_ & -> & _). cbn [expiresIn notBefore].
  split.
  - intros e He. destruct Hexp as [[_ Hn]|(n & _ & Hpos & Hn)]; congruence.
  - intros b Hb. destruct Hnbf as [[_ Hn]|(n & _ & Hpos & Hn)]; congruence.
Qed.

End CreatedSignerFacts.

(** ** Construction *)

(** X4: whatever [createSigner] throws is a [TokenError] with the code
    [invalidOption] and no wrapped cause; no option value makes it fail
    in another way. *)
Theorem createSigner_throws_only_invalidOption E options e :
  createSigner E options = Throw e →
  ∃ message, e = TokenError invalidOption message None.
Proof.
  unfold createSigner, reject_if, invalid. cbv zeta.
  repeat match goal with
         | |- context [if ?b then Throw ?x else _] =>
             destruct b; [intros [= <-]; by eexists|]
         end.
  by destruct (negb (is_type _ TFunction) && _).
Qed.

Lemma createSigner_throws_only_invalidOption_witness :
  ∃ message,
    invalid "The expiresIn option must be a positive number."
    = TokenError invalidOption message None.
Proof.
  apply (createSigner_throws_only_invalidOption host0
           (VObj [("secret", VStr "secretsecretsecret"); ("expiresIn", VNum (-1))])).
  by vm_compute.
Defined.

(** X5: a signer that was returned holds validated options. Its
    algorithm is supported; its secret is truthy and a string, an object
    or a function; a time span is either absent from the signer, which is
    the case exactly for a falsy option (0 included), or a positive
    number; jti, iss, sub, nonce and kid are falsy or strings, aud is
    falsy, a string or an array, encoding is falsy or a string and the
    extra header is falsy or an object; the fixed payload has exactly
    the five fixed names, in order. *)
Theorem created_signer_is_validated E options s :
  createSigner E options = Ok s →
  supported E (algorithm (config_of s)) = true
  ∧ truthy (secret (config_of s)) = true
  ∧ (typeof (secret (config_of s)) = TString ∨ typeof (secret (config_of s)) = TObject
     ∨ typeof (secret (config_of s)) = TFunction)
  ∧ falsy_or TString (encoding (config_of s))
  ∧ (expiresIn (config_of s) = None ↔ truthy (option_of options "expiresIn") = false)
  ∧ (∀ n, expiresIn (config_of s) = Some n ↔ option_of options "expiresIn" = VNum n ∧ 0 < n)
  ∧ (notBefore (config_of s) = None ↔ truthy (option_of options "notBefore") = false)
  ∧ (∀ n, notBefore (config_of s) = Some n ↔ option_of options "notBefore" = VNum n ∧ 0 < n)
  ∧ (fixedPayload (config_of s)).*1 = fixed_names
  ∧ Forall (λ k, falsy_or TString (prop (fixedPayload (config_of s)) k))
           ["jti"; "iss"; "sub"; "nonce"]
  ∧ (falsy_or TString (prop (fixedPayload (config_of s)) "aud")
     ∨ isArray (prop (fixedPayload (config_of s)) "aud") = true)
  ∧ falsy_or TString (kid (config_of s))
  ∧ falsy_or TObject (additionalHeader (config_of s)).
Proof.
  intros Hok.
  destruct (createSigner_guards E _ _ Hok)
    as (Hs1 & Hs2 & Henc & Hexp & Hnbf & Hjti & Haud & Hiss & Hsub & Hnonce & Hkid & Hhdr).
  apply createSigner_inv in Hok as (Hsup & -> & _).
  cbn [secret algorithm encoding expiresIn notBefore fixedPayload kid additionalHeader].
  assert (Hspan : ∀ v,
             (truthy v = false ∧ span v = None) ∨ (∃ n, v = VNum n ∧ 0 < n ∧ span v = Some n) →
             (span v = None ↔ truthy v = false)
             ∧ ∀ n, span v = Some n ↔ v = VNum n ∧ 0 < n).
  { intros v [[Hf Hn]|(n & -> & Hpos & Hn)]; rewrite Hn.
    - split; [done|]. intros n. split; [done|]. intros [-> Hpos].
      simpl in Hf. apply negb_false_iff, Z.eqb_eq in Hf. lia.
    - split.
      + split; [done|]. simpl. intros Hf%negb_false_iff%Z.eqb_eq. lia.
      + intros m. split; [intros [= <-]; by split | by intros [[= <-] _]]. }
  destruct (Hspan _ Hexp) as [He1 He2]. destruct (Hspan _ Hnbf) as [Hb1 Hb2].
  destruct (fixedPayload_of_props (option_of options "jti") (option_of options "aud")
              (option_of options "iss") (option_of options "sub")
              (option_of options "nonce")) as (Hp1 & Hp2 & Hp3 & Hp4 & Hp5).
  split_and!; try done.
  repeat (apply Forall_cons_2;
              [cbn beta; unfold prop; by rewrite ?Hp1, ?Hp3, ?Hp4, ?Hp5|]).
    apply Forall_nil_2.
Qed.

Lemma created_signer_is_validated_witness :
  expiresIn (mutating0 true) = Some 60000
  ↔ option_of (VObj [("secret", VStr "secretsecretsecret"); ("mutatePayload", VBool true);
                     ("expiresIn", VNum 60000); ("iss", VStr "me")]) "expiresIn"
    = VNum 60000
    ∧ 0 < 60000.
Proof.
  destruct (created_signer_is_validated host0
              (VObj [("secret", VStr "secretsecretsecret"); ("mutatePayload", VBool true);
                     ("expiresIn", VNum 60000); ("iss", VStr "me")])
              (SyncSigner (mutating0 true)))
    as (_ & _ & _ & _ & _ & Hexp & _); [by vm_compute|].
  exact (Hexp 60000).
Defined.

(** ** The payload of a created signer *)

(** X6: in the payload a created signer encodes (without noTimestamp),
    [iat] is a number, and [exp] and [nbf], when their span is
    configured, are numbers not smaller than [iat]: a token never
    expires, and never becomes active, before the second it was issued
    in. *)
Theorem exp_and_nbf_not_before_iat E options s now o :
  createSigner E options = Ok s →
  truthy (noTimestamp (config_of s)) = false →
  ∃ i,
    get_prop (signed_payload E (config_of s) now o) "iat" = Some (VNum i)
    ∧ (∀ e, expiresIn (config_of s) = Some e →
            ∃ x, get_prop (signed_payload E (config_of s) now o) "exp" = Some (VNum x)
                 ∧ i ≤ x)
    ∧ (∀ b, notBefore (config_of s) = Some b →
            ∃ y, get_prop (signed_payload E (config_of s) now o) "nbf" = Some (VNum y)
                 ∧ i ≤ y).
Proof.
  intros Hok Hnots.
  destruct (created_spans_positive E _ _ Hok) as [Hexp Hnbf].
  exists (iat_ms E (prop o "iat") now / 1000). split_and!.
  - by rewrite (signed_payload_precedence E _ _ _ _ _ Hok), additionalPayload_iat, Hnots.
  - intros e He. eexists. split.
    + by rewrite (signed_payload_precedence E _ _ _ _ _ Hok), additionalPayload_exp, He.
    + apply Hexp in He. apply Z.div_le_mono; lia.
  - intros b Hb. eexists. split.
    + by rewrite (signed_payload_precedence E _ _ _ _ _ Hok), additionalPayload_nbf, Hb.
    + apply Hnbf in Hb. apply Z.div_le_mono; lia.
Qed.

Lemma exp_and_nbf_not_before_iat_witness :
  ∃ i,
    get_prop (signed_payload host0 (mutating0 false) 1579521212345 [("a", VNum 1)]) "iat"
    = Some (VNum i)
    ∧ (∀ e, Some 60000 = Some e →
            ∃ x, get_prop (signed_payload host0 (mutating0 false) 1579521212345
                             [("a", VNum 1)]) "exp" = Some (VNum x)
                 ∧ i ≤ x)
    ∧ (∀ b, @None Z = Some b →
            ∃ y, get_prop (signed_payload host0 (mutating0 false) 1579521212345
                             [("a", VNum 1)]) "nbf" = Some (VNum y)
                 ∧ i ≤ y).
Proof.
  apply (exp_and_nbf_not_before_iat host0
           (VObj [("secret", VStr "secretsecretsecret"); ("mutatePayload", VBool false);
                  ("expiresIn", VNum 60000); ("iss", VStr "me")])
           (SyncSigner (mutating0 false)) 1579521212345 [("a", VNum 1)]);
    by vm_compute.
Defined.

(** X7: a property of the payload whose name is none of the eight
    reserved ones (jti, aud, iss, sub, nonce, iat, exp, nbf) has the
    same value in the payload a created signer encodes. *)
Theorem unreserved_properties_kept E options s now o k :
  createSigner E options = Ok s →
  k ∉ reserved_names →
  get_prop (signed_payload E (config_of s) now o) k = get_prop o k.
Proof.
  intros Hok Hk.
  rewrite (signed_payload_precedence E _ _ _ _ _ Hok).
  unfold reserved_names, fixed_names in Hk. simpl in Hk.
  rewrite !not_elem_of_cons in Hk.
  destruct Hk as (H1 & H2 & H3 & H4 & H5 & H6 & H7 & H8 & _).
  rewrite additionalPayload_other by done.
  assert (Hfix : get_prop (fixedPayload (config_of s)) k = None).
  { apply get_prop_None. rewrite (created_fixedPayload E _ _ Hok), fixedPayload_of_keys.
    unfold fixed_names. rewrite !not_elem_of_cons. split_and!; try done.
    apply not_elem_of_nil. }
  by rewrite Hfix.
Qed.

Lemma unreserved_properties_kept_witness :
  get_prop (signed_payload host0 (mutating0 false) 1579521212345
              [("a", VNum 1); ("iss", VStr "you")]) "a"
  = get_prop [("a", VNum 1); ("iss", VStr "you")] "a".
Proof.
  apply (unreserved_properties_kept host0
           (VObj [("secret", VStr "secretsecretsecret"); ("mutatePayload", VBool false);
                  ("expiresIn", VNum 60000); ("iss", VStr "me")])
           (SyncSigner (mutating0 false))); [by vm_compute | compute_done].
Defined.

(** X8: in the payload a created signer encodes, each of jti, aud, iss,
    sub and nonce has the value of the signer's option of that name,
    [undefined] when the option was not given, whatever the caller's
    payload holds under that name. *)
Theorem fixed_names_come_from_options E options s now o k :
  createSigner E options = Ok s →
  k ∈ fixed_names →
  get_prop (signed_payload E (config_of s) now o) k = Some (option_of options k).
Proof.
  intros Hok Hk.
  rewrite (signed_payload_precedence E _ _ _ _ _ Hok).
  rewrite (created_fixedPayload E _ _ Hok).
  unfold fixed_names in Hk.
  repeat (apply elem_of_cons in Hk as [->|Hk]; [by rewrite additionalPayload_other|]).
  by apply elem_of_nil in Hk.
Qed.

Lemma fixed_names_come_from_options_witness :
  get_prop (signed_payload host0 (mutating0 false) 1579521212345
              [("a", VNum 1); ("iss", VStr "you"); ("sub", VStr "them")]) "iss"
  = Some (VStr "me")
  ∧ get_prop (signed_payload host0 (mutating0 false) 1579521212345
                [("a", VNum 1); ("iss", VStr "you"); ("sub", VStr "them")]) "sub"
    = Some VUndefined.
Proof.
  split.
  - apply (fixed_names_come_from_options host0
             (VObj [("secret", VStr "secretsecretsecret"); ("mutatePayload", VBool false);
                    ("expiresIn", VNum 60000); ("iss", VStr "me")])
             (SyncSigner (mutating0 false))); [by vm_compute | compute_done].
  - apply (fixed_names_come_from_options host0
             (VObj [("secret", VStr "secretsecretsecret"); ("mutatePayload", VBool false);
                    ("expiresIn", VNum 60000); ("iss", VStr "me")])
             (SyncSigner (mutating0 false))); [by vm_compute | compute_done].
Defined.



(** ** Signing twice, failing, and the callback *)



(** X11: with mutatePayload the caller's object is written before the
    signature is made. After the synchronous [sign] the object holds the
    merged claims whether the call returned a token or threw in
    [createSignature]; the deferred [sign] writes it once the secret is
    at hand, and leaves the store as it was when the secret callback
    failed. *)
Theorem mutatePayload_written_before_signature E c now l o h :
  h !! l = Some o →
  truthy (mutatePayload c) = true →
  snd (signJwt E c now (Ref l) h) !! l = Some (signed_payload E c now o)
  ∧ (∀ e, (∀ hd pl, createSignature E (algorithm c) (secret c) hd pl VUndefined = Throw e) →
          fst (signJwt E c now (Ref l) h) = Throw e)
  ∧ (∀ key,
       currentSecret E c (header_of (algorithm c) (kid c) (additionalHeader c) (Ref l))
       = Ok key →
       snd (signJwt_try E c now (Ref l) h) !! l = Some (signed_payload E c now o))
  ∧ (∀ e,
       currentSecret E c (header_of (algorithm c) (kid c) (additionalHeader c) (Ref l))
       = Throw e →
       signJwt_try E c now (Ref l) h = (Throw e, h)).
Proof.
  intros Hl Hmut.
  destruct (encodeHeader_ref E (algorithm c) (kid c) (additionalHeader c) l (encoding c))
    as [hd Hhd].
  destruct (encodePayload_ref E now l (encoding c) (fixedPayload c) (noTimestamp c)
              (expiresIn c) (notBefore c) (mutatePayload c) h) as (body & _ & Heq).
  rewrite Hl, Hmut in Heq. simpl in Heq.
  fold (signed_payload E c now o) in Heq.
  split_and!.
  - rewrite (signJwt_store E _ _ _ _ _ _ Hhd), Heq. apply lookup_insert_eq.
  - intros e Hsig. rewrite signJwt_result, Hhd, Heq. simpl. by rewrite Hsig.
  - intros key Hkey. unfold signJwt_try, lift, mbind, M_bind, mret, M_ret.
    rewrite Hhd, Hkey, Heq.
    destruct (createSignature E _ _ _ _ _); apply lookup_insert_eq.
  - intros e Hkey. unfold signJwt_try, lift, mbind, M_bind, mret, M_ret.
    by rewrite Hhd, Hkey.
Qed.

Lemma mutatePayload_written_before_signature_witness :
  snd (signJwt host_failing_signature (mutating0 true) 1579521212345 (Ref 1%positive)
         caller_heap) !! 1%positive
  = Some (signed_payload host_failing_signature (mutating0 true) 1579521212345
            [("a", VNum 1)])
  ∧ fst (signJwt host_failing_signature (mutating0 true) 1579521212345 (Ref 1%positive)
           caller_heap)
    = Throw (OtherError "invalid key")
  ∧ signJwt_try host_failing_secret (with_mutatePayload (config_of deferred0) (VBool true))
      1579521212345 (Ref 1%positive) caller_heap
    = (Throw (TokenError secretFetchingError "Cannot fetch secret."
                (Some (OtherError "no secret"))), caller_heap).
Proof.
  destruct (mutatePayload_written_before_signature host_failing_signature (mutating0 true)
              1579521212345 1%positive [("a", VNum 1)] caller_heap)
    as (Hstore & Hthrow & _); [by vm_compute | by vm_compute |].
  split; [exact Hstore|]. split; [by apply Hthrow|].
  destruct (mutatePayload_written_before_signature host_failing_secret
              (with_mutatePayload (config_of deferred0) (VBool true))
              1579521212345 1%positive [("a", VNum 1)] caller_heap)
    as (_ & _ & _ & Hsecret); [by vm_compute | by vm_compute |].
  apply (Hsecret (TokenError secretFetchingError "Cannot fetch secret."
                    (Some (OtherError "no secret")))).
  by vm_compute.
Defined.

(** X12: a payload that is neither a string nor an object (a number, a
    boolean, [undefined], a function) makes [sign] fail with the
    InvalidType error before anything else happens: the synchronous
    function throws it, the deferred one rejects with it or hands it to
    the callback, whatever the secret, and the store is as it was. *)
Theorem rejected_payload_changes_nothing E c now payload h :
  arg_typeof payload ≠ TString →
  arg_typeof payload ≠ TObject →
  signJwt E c now payload h = (Throw invalidTypeError, h)
  ∧ signJwt_async E c now payload None h
    = ({| settled := Throw invalidTypeError; calls := [] |}, h)
  ∧ ∀ f, signJwt_async E c now payload (Some f) h
         = ({| settled := f (CbError invalidTypeError);
               calls := [CbError invalidTypeError] |}, h).
Proof.
  intros Hs Ho.
  assert (Hhd := encodeHeader_rejects E (algorithm c) (kid c) (additionalHeader c) payload
                   (encoding c) Hs Ho).
  split_and!.
  - unfold signJwt, lift, mbind, M_bind. by rewrite Hhd.
  - unfold signJwt_async, signJwt_try, lift, mbind, M_bind. by rewrite Hhd.
  - intros f. unfold signJwt_async, signJwt_try, lift, mbind, M_bind. by rewrite Hhd.
Qed.

Lemma rejected_payload_changes_nothing_witness :
  signJwt host0 (mutating0 true) 1579521212345 (Val VUndefined) caller_heap
  = (Throw invalidTypeError, caller_heap)
  ∧ signJwt_async host_failing_secret (config_of deferred0) 1579521212345 (Val (VBool true))
      None caller_heap
    = ({| settled := Throw invalidTypeError; calls := [] |}, caller_heap).
Proof.
  split.
  - apply (rejected_payload_changes_nothing host0 (mutating0 true) 1579521212345
             (Val VUndefined) caller_heap); by vm_compute.
  - apply (rejected_payload_changes_nothing host_failing_secret (config_of deferred0)
             1579521212345 (Val (VBool true)) caller_heap); by vm_compute.
Defined.

(** X13: the deferred [sign] calls a callback once or twice, never more
    and never not at all. A callback that does not throw is called
    exactly once. It is called twice exactly when the token was made and
    the callback threw on receiving it: the second call hands it its own
    error, and the promise settles as that second call does. *)
Theorem callback_called_once_or_twice E c now payload f h :
  (1 ≤ length (calls (fst (signJwt_async E c now payload (Some f) h))) ≤ 2)%nat
  ∧ ((∀ a e, f a ≠ Throw e) →
     length (calls (fst (signJwt_async E c now payload (Some f) h))) = 1%nat)
  ∧ (length (calls (fst (signJwt_async E c now payload (Some f) h))) = 2%nat
     ↔ ∃ token e,
         fst (signJwt_try E c now payload h) = Ok token
         ∧ f (CbToken token) = Throw e)
  ∧ (∀ token e,
       fst (signJwt_try E c now payload h) = Ok token →
       f (CbToken token) = Throw e →
       fst (signJwt_async E c now payload (Some f) h)
       = {| settled := f (CbError e); calls := [CbToken token; CbError e] |}).
Proof.
  unfold signJwt_async, signJwt_catch.
  destruct (signJwt_try E c now payload h) as [[token|e] h1]; simpl.
  - destruct (f (CbToken token)) as [v|e] eqn:Hf; simpl.
    + split; [lia|]. split_and!; [done| |].
      * split; [done|]. intros (t & e & [= <-] & He). congruence.
      * intros t e [= <-] He. congruence.
    + split; [lia|]. split_and!.
      * intros Hnever. by destruct (Hnever (CbToken token) e).
      * split; [|done]. intros _. by exists token, e.
      * intros t e' [= <-] He. rewrite Hf in He. by injection He as <-.
  - split; [lia|]. split_and!; [done| |done].
    split; [done|]. by intros (t & e' & ? & _).
Qed.

Lemma callback_called_once_or_twice_witness :
  fst (signJwt_async host0 (config_of deferred0) 1579521212345 (Val (VObj [("a", VNum 1)]))
         (Some throwing_callback) ∅)
  = {| settled := Ok VUndefined;
       calls := [CbToken "eyJhbGciOiJIUzI1NiIsInR5cCI6IkpXVCJ9.eyJhIjoxLCJpYXQiOjE1Nzk1MjEyMTJ9.c2lnbg";
                 CbError (OtherError "thrown by the callback")] |}.
Proof.
  destruct (callback_called_once_or_twice host0 (config_of deferred0) 1579521212345
              (Val (VObj [("a", VNum 1)])) throwing_callback ∅) as (_ & _ & _ & Htwice).
  apply Htwice; by vm_compute.
Defined.

(** X14: when the secret is not a function and [createSignature] gives
    the same result with and without the worker-thread flag, the
    deferred [sign] settles as the synchronous one returns: it resolves
    to the same token or rejects with the same error, and leaves the
    same store. *)
Theorem deferred_agrees_with_synchronous E c now payload h :
  typeof (secret c) ≠ TFunction →
  (∀ alg key hd pl,
     createSignature E alg key hd pl (useWorkerThreads c)
     = createSignature E alg key hd pl VUndefined) →
  signJwt_async E c now payload None h = settle (signJwt E c now payload h).
Proof.
  intros Hsecret Hflag.
  assert (Htry : signJwt_try E c now payload h = signJwt E c now payload h).
  { assert (Hf : is_type (secret c) TFunction = false).
    { unfold is_type. by destruct (typeof (secret c)). }
    unfold signJwt_try, signJwt, currentSecret, lift, mbind, M_bind, mret, M_ret.
    rewrite Hf.
    destruct (encodeHeader E _ _ _ _ _) as [[hd header]|e]; [|done].
    destruct (encodePayload E _ _ _ _ _ _ _ _ h) as [[pl|e] h1]; [|done].
    by rewrite Hflag. }
  unfold signJwt_async. rewrite Htry.
  by destruct (signJwt E c now payload h) as [[token|e] h1].
Qed.

Lemma deferred_agrees_with_synchronous_witness :
  signJwt_async host0 (mutating0 true) 1579521212345 (Ref 1%positive) None caller_heap
  = settle (signJwt host0 (mutating0 true) 1579521212345 (Ref 1%positive) caller_heap).
Proof.
  apply (deferred_agrees_with_synchronous host0 (mutating0 true) 1579521212345
           (Ref 1%positive) caller_heap); [by vm_compute | by intros].
Defined.

(** X15: the algorithms the error message of [createSigner] lists are
    exactly the ones it accepts, each listed once: an algorithm option
    passes the check of lines 101-106 exactly when it is a string of the
    list of lines 107-109. *)
Theorem supported_iff_listed E alg :
  supportedAlgorithms E = join ", " (listed_algorithms E)
  ∧ NoDup (listed_algorithms E)
  ∧ (supported E alg = true ↔ ∃ a, alg = VStr a ∧ a ∈ listed_algorithms E).
Proof.
  unfold listed_algorithms.
  destruct (unique_spec (publicKeyAlgorithms E ++ rsaKeyAlgorithms E ++ hashAlgorithms E
                         ++ ["none"])) as [Hnd Hin].
  split_and!; [done|done|].
  unfold supported. rewrite !orb_true_iff, !includes_spec. split.
  - intros [[[Hnone|(a & -> & Ha)]|(a & -> & Ha)]|(a & -> & Ha)].
    + exists "none". split.
      * destruct alg; simpl in Hnone; try done. apply String.eqb_eq in Hnone. by subst.
      * rewrite Hin, !elem_of_app, list_elem_of_singleton. tauto.
    + exists a. split; [done|]. rewrite Hin, !elem_of_app. tauto.
    + exists a. split; [done|]. rewrite Hin, !elem_of_app. tauto.
    + exists a. split; [done|]. rewrite Hin, !elem_of_app. tauto.
  - intros (a & -> & Ha). rewrite Hin, !elem_of_app, list_elem_of_singleton in Ha.
    destruct Ha as [Ha|[Ha|[Ha| ->]]].
    + left; left; right. by exists a.
    + left; right. by exists a.
    + right. by exists a.
    + left; left; left. done.
Qed.

(** X16: for a payload that is not an array, the option mutatePayload
    does not change what [sign] returns or throws: the token is the same
    whether the claims are written into the caller's object or into a new
    one. For an array it does: with mutatePayload the claims are written
    to the array itself and the token encodes the array, which
    [JSON.stringify] writes as [[...]] without them; without it the token
    encodes a new object with the elements and the claims, so the two
    tokens differ. *)
Theorem mutatePayload_does_not_change_the_token E c now payload h v1 v2 :
  (is_array payload = false →
   fst (signJwt E (with_mutatePayload c v1) now payload h)
   = fst (signJwt E (with_mutatePayload c v2) now payload h))
  ∧ (∀ l token1 h1 token2 h2,
       payload = Val (VArr l) → truthy v1 = true → truthy v2 = false →
       signJwt E (with_mutatePayload c v1) now payload h = (Ok token1, h1) →
       signJwt E (with_mutatePayload c v2) now payload h = (Ok token2, h2) →
       token1 ≠ token2
       ∧ ∃ hd sg1 sg2 json1 json2,
           stringify (VArr l) = Some json1
           ∧ stringify (VObj (assign (assign (index_props 0 l) (fixedPayload c))
                                (additionalPayload_of now (noTimestamp c) (expiresIn c)
                                   (notBefore c)))) = Some json2
           ∧ token1 = hd +:+ "." +:+ base64UrlEncode (base64 json1) +:+ "." +:+ sg1
           ∧ token2 = hd +:+ "." +:+ base64UrlEncode (base64 json2) +:+ "." +:+ sg2).
Proof.
  split.
  - intros Harr. rewrite !signJwt_result.
    cbn [with_mutatePayload algorithm kid additionalHeader encoding fixedPayload noTimestamp
           expiresIn notBefore mutatePayload secret].
    destruct (encodeHeader E _ _ _ _ _) as [[hd header]|e] eqn:Hhd; [|done].
    apply encodeHeader_ok_inv in Hhd as (Hty & _).
    by rewrite (encodePayload_mutate_irrelevant E now payload (encoding c) (fixedPayload c)
                  (noTimestamp c) (expiresIn c) (notBefore c) v1 v2 h Hty Harr).
  - intros l token1 h1 token2 h2 -> Hv1 Hv2.
    unfold signJwt, lift, mbind, M_bind, mret, M_ret.
    cbn [with_mutatePayload algorithm kid additionalHeader encoding fixedPayload noTimestamp
           expiresIn notBefore mutatePayload secret].
    destruct (encodeHeader E _ _ _ _ _) as [[hd header]|e]; [|done].
    destruct (encodePayload_array E now l (encoding c) (fixedPayload c) (noTimestamp c)
                (expiresIn c) (notBefore c) v1 h) as (body1 & body1' & Hj1 & Hj1' & ->).
    destruct (encodePayload_array E now l (encoding c) (fixedPayload c) (noTimestamp c)
                (expiresIn c) (notBefore c) v2 h) as (body2 & body2' & Hj2 & Hj2' & ->).
    rewrite Hv1, Hv2.
    destruct (base64UrlEncode_first "[" body1) as (t1 & Ht1).
    destruct (base64UrlEncode_first "{" body2') as (t2 & Ht2).
    remember (base64UrlEncode (base64 (String "[" body1))) as pl1 eqn:Hpl1.
    remember (base64UrlEncode (base64 (String "{" body2'))) as pl2 eqn:Hpl2.
    destruct (createSignature E _ _ _ pl1 _) as [s1|?]; [|done].
    destruct (createSignature E _ _ _ pl2 _) as [s2|?]; [|done].
    intros [= <- <-] [= <- <-]. split.
    + intros Heq. apply append_inv_head in Heq.
      change ("." +:+ pl1 +:+ "." +:+ base64UrlEncode s1)
        with (String "." (pl1 +:+ "." +:+ base64UrlEncode s1)) in Heq.
      change ("." +:+ pl2 +:+ "." +:+ base64UrlEncode s2)
        with (String "." (pl2 +:+ "." +:+ base64UrlEncode s2)) in Heq.
      injection Heq as Heq. rewrite Ht1, Ht2 in Heq. by injection Heq.
    + exists hd, (base64UrlEncode s1), (base64UrlEncode s2), (String "[" body1),
        (String "{" body2'). by rewrite Hpl1, Hpl2.
Qed.

Lemma mutatePayload_does_not_change_the_token_witness :
  fst (signJwt host0 (with_mutatePayload (mutating0 false) (VBool true)) 1579521212345
         (Ref 1%positive) caller_heap)
  = fst (signJwt host0 (with_mutatePayload (mutating0 false) (VBool false)) 1579521212345
           (Ref 1%positive) caller_heap)
  ∧ "eyJhbGciOiJIUzI1NiIsInR5cCI6IkpXVCJ9.WzEsMl0.c2lnbg"
    ≠ "eyJhbGciOiJIUzI1NiIsInR5cCI6IkpXVCJ9.eyIwIjoxLCIxIjoyLCJpc3MiOiJtZSIsImlhdCI6MTU3OTUyMTIxMiwiZXhwIjoxNTc5NTIxMjcyfQ.c2lnbg".
Proof.
  split.
  - apply (mutatePayload_does_not_change_the_token host0 (mutating0 false) 1579521212345
             (Ref 1%positive) caller_heap (VBool true) (VBool false)).
    reflexivity.
  - destruct (mutatePayload_does_not_change_the_token host0 (mutating0 false) 1579521212345
                (Val (VArr [VNum 1; VNum 2])) caller_heap (VBool true) (VBool false))
      as [_ Harray].
    apply (Harray [VNum 1; VNum 2] _
             (snd (signJwt host0 (with_mutatePayload (mutating0 false) (VBool true))
                     1579521212345 (Val (VArr [VNum 1; VNum 2])) caller_heap))
             _
             (snd (signJwt host0 (with_mutatePayload (mutating0 false) (VBool false))
                     1579521212345 (Val (VArr [VNum 1; VNum 2])) caller_heap)));
      by vm_compute.
Defined.

(** X17: a buffer payload that the runtime decodes to a text under the
    encoding option is signed as that text: both calls return the same
    token or throw the same error, and leave the store alone. A buffer
    the runtime cannot decode makes [sign] fail with the [TypeError] of
    [toString], and leaves the store alone. *)
Theorem buffer_signed_as_its_text E c now b h :
  match bufferToString E (encoding c) b with
  | Some s =>
      signJwt E c now (Val (VBuf b)) h = signJwt E c now (Val (VStr s)) h
      ∧ snd (signJwt E c now (Val (VBuf b)) h) = h
      ∧ signJwt_try E c now (Val (VBuf b)) h = signJwt_try E c now (Val (VStr s)) h
  | None =>
      signJwt E c now (Val (VBuf b)) h = (Throw unknownEncodingError, h)
      ∧ signJwt_try E c now (Val (VBuf b)) h = (Throw unknownEncodingError, h)
  end.
Proof.
  destruct (bufferToString E (encoding c) b) as [s|] eqn:Hb.
  - assert (Hdec : decode_buffer E (encoding c) (Val (VBuf b)) = Ok (Val (VStr s))).
    { simpl. by rewrite Hb. }
    assert (Hhd : encodeHeader E (algorithm c) (kid c) (additionalHeader c) (Val (VBuf b))
                    (encoding c)
                  = encodeHeader E (algorithm c) (kid c) (additionalHeader c)
                      (Val (VStr s)) (encoding c)).
    { unfold encodeHeader. by rewrite Hdec. }
    assert (Hpl : ∀ t, decode_buffer E (encoding c) t = Ok (Val (VStr s)) →
                  encodePayload E now t (encoding c) (fixedPayload c) (noTimestamp c)
                    (expiresIn c) (notBefore c) (mutatePayload c) h
                  = (Ok (base64UrlEncode (base64 s)), h)).
    { intros t Ht. by apply encodePayload_text. }
    unfold signJwt, signJwt_try, lift, mbind, M_bind, mret, M_ret.
    rewrite Hhd. clear Hhd.
    destruct (encodeHeader E _ _ _ _ _) as [[hd header]|e]; [|done].
    rewrite (Hpl (Val (VBuf b)) Hdec), (Hpl (Val (VStr s)) eq_refl).
    split_and!; [done| |].
    + by destruct (createSignature E _ _ _ _ _).
    + by destruct (currentSecret E c header).
  - split; [|by apply signJwt_try_undecodable].
    unfold signJwt, lift, mbind, M_bind.
    rewrite (encodeHeader_undecodable E _ _ _ _ _ unknownEncodingError); [done|].
    simpl. by rewrite Hb.
Qed.

(** X18: the deferred signer of a callback secret hands the callback the
    header that is serialized into the token, extra header fields and key
    id included, and signs with the secret the callback returned; when
    the callback fails, [sign] fails with the [secretFetchingError]
    that wraps the callback's error, and the payload is not encoded. *)
Theorem secret_callback_gets_the_token_header E c now payload h :
  typeof (secret c) = TFunction →
  (∀ token h',
     signJwt_try E c now payload h = (Ok token, h') →
     ∃ hd header pl key signature,
       base64 <$> stringify (VObj header) = Some hd
       ∧ getAsyncSecret E (secret c) header = Ok key
       ∧ createSignature E (algorithm c) key hd pl (useWorkerThreads c) = Ok signature
       ∧ token = hd +:+ "." +:+ pl +:+ "." +:+ base64UrlEncode signature)
  ∧ (∀ hd header cause,
       encodeHeader E (algorithm c) (kid c) (additionalHeader c) payload (encoding c)
       = Ok (hd, header) →
       getAsyncSecret E (secret c) header = Throw cause →
       signJwt_try E c now payload h
       = (Throw (TokenError secretFetchingError "Cannot fetch secret." (Some cause)), h)).
Proof.
  intros Hsecret.
  assert (Hf : is_type (secret c) TFunction = true) by (unfold is_type; by rewrite Hsecret).
  split.
  - intros token h'. unfold signJwt_try, currentSecret, lift, mbind, M_bind, mret, M_ret.
    rewrite Hf.
    destruct (encodeHeader E _ _ _ _ _) as [[hd header]|e] eqn:Hhd; [|done].
    destruct (getAsyncSecret E (secret c) header) as [key|e] eqn:Hkey; [|done].
    destruct (encodePayload E _ _ _ _ _ _ _ _ h) as [[pl|e] h1]; [|done].
    destruct (createSignature E _ _ _ _ _) as [signature|e] eqn:Hsig; [|done].
    intros [= <- <-].
    apply encodeHeader_ok_inv in Hhd as (_ & _ & _ & _ & body & Hj & ->).
    exists (base64 (String "{" body)), header, pl, key, signature.
    split_and!; [by rewrite Hj|done..].
  - intros hd header cause Hhd Hkey.
    unfold signJwt_try, currentSecret, lift, mbind, M_bind, mret, M_ret.
    by rewrite Hhd, Hf, Hkey.
Qed.

Lemma secret_callback_gets_the_token_header_witness :
  signJwt_try host_failing_secret (config_of deferred0) 1579521212345
    (Val (VObj [("a", VNum 1)])) ∅
  = (Throw (TokenError secretFetchingError "Cannot fetch secret."
              (Some (OtherError "no secret"))), ∅).
Proof.
  destruct (secret_callback_gets_the_token_header host_failing_secret (config_of deferred0)
              1579521212345 (Val (VObj [("a", VNum 1)])) ∅) as [_ Hfail]; [by vm_compute|].
  apply (Hfail "eyJhbGciOiJIUzI1NiIsInR5cCI6IkpXVCJ9"
           [("alg", VStr "HS256"); ("typ", VStr "JWT"); ("kid", VUndefined)]);
    by vm_compute.
Defined.
